(** * Academia records backend: a shallow embedding of [server.js]

    The server keeps five SQLite tables behind four JSON endpoints.  This
    development embeds the JavaScript of the handlers, the SQL statements
    they issue and the start-up sequence as Rocq functions over an explicit
    store, and proves the properties stated for them.

    Layout:
    - [Js]       the fragment of JavaScript values and operators the
                 handlers use ([x[0]], [||], [+], [colors[i]]), strings
                 as UTF-16 code units with their UTF-8 text;
    - [Sql]      stored values, column affinities, the five tables and the
                 statements of the source;
    - [Server]   the handlers, the start-up sequence and the process;
    - [Worked]   stores and requests the properties are run on;
    - the properties, each proved for every store and request, then
      replayed on the worked ones. *)

From Stdlib Require Import ZArith List String Ascii Bool Lia.
From Stdlib Require Import QArith Qround DecimalString DecimalZ DecimalPos.
From Stdlib Require Import Sorting.Sorted Sorting.Permutation.
Import ListNotations.

Local Open Scope Z_scope.
Local Open Scope string_scope.

(** Decimal rendering of an integer, as the SQLite integer-to-text
    conversion prints it, and as JavaScript prints an integer of the
    32-bit range. *)
Definition decimal (z : Z) : string :=
  NilZero.string_of_int (Z.to_int z).

(* ------------------------------------------------------------------ *)
(** ** JavaScript values *)

Module Js.

(** A UTF-16 code unit: sixteen bits, kept as the high and the low
    byte. *)
Definition code_unit : Type := (ascii * ascii)%type.

(** A string is the sequence of its code units. *)
Definition jsstring : Type := list code_unit.

Definition code (u : code_unit) : N :=
  (N_of_ascii (fst u) * 256 + N_of_ascii (snd u))%N.

Definition unit_of (n : N) : code_unit :=
  (ascii_of_N (n / 256), ascii_of_N (n mod 256)).

(** The string a literal denotes: one unit per character, of the same
    number.  The literals of the source are ASCII. *)
Definition lit (s : string) : jsstring :=
  map (fun c => (zero, c)) (list_ascii_of_string s).

(** The units D800-DBFF and DC00-DFFF, which stand for a character
    beyond the Basic Multilingual Plane when a high one is followed by a
    low one. *)
Definition high_surrogate (u : code_unit) : bool :=
  N.leb 55296 (code u) && N.leb (code u) 56319.
Definition low_surrogate (u : code_unit) : bool :=
  N.leb 56320 (code u) && N.leb (code u) 57343.

(** The characters (code points) a string spells.  A surrogate that is
    not part of a pair spells no character; converting the string to
    UTF-8 puts U+FFFD in its place. *)
Definition replacement : N := 65533.

Fixpoint scalars (s : jsstring) : list N :=
  match s with
  | [] => []
  | u :: rest =>
      if high_surrogate u then
        match rest with
        | v :: rest' =>
            if low_surrogate v
            then (65536 + (code u - 55296) * 1024 + (code v - 56320))%N
                 :: scalars rest'
            else replacement :: scalars rest
        | [] => [replacement]
        end
      else if low_surrogate u then replacement :: scalars rest
      else code u :: scalars rest
  end.

(** The UTF-8 bytes of a character. *)
Definition utf8_bytes (c : N) : list ascii :=
  if N.ltb c 128 then [ascii_of_N c]
  else if N.ltb c 2048 then
    [ascii_of_N (192 + c / 64); ascii_of_N (128 + c mod 64)]
  else if N.ltb c 65536 then
    [ascii_of_N (224 + c / 4096); ascii_of_N (128 + (c / 64) mod 64);
     ascii_of_N (128 + c mod 64)]
  else
    [ascii_of_N (240 + c / 262144); ascii_of_N (128 + (c / 4096) mod 64);
     ascii_of_N (128 + (c / 64) mod 64); ascii_of_N (128 + c mod 64)].

(** The UTF-8 text of a string, as the engine hands it to native code. *)
Definition utf8 (s : jsstring) : string :=
  string_of_list_ascii (flat_map utf8_bytes (scalars s)).

(** The first character of a string: one unit, or the two units of a
    surrogate pair; nothing when the string is empty. *)
Definition first_character (s : jsstring) : jsstring :=
  match s with
  | [] => []
  | u :: rest =>
      match rest with
      | v :: _ => if high_surrogate u && low_surrogate v then [u; v] else [u]
      | [] => [u]
      end
  end.

(** A string that is empty or starts with a character of the Basic
    Multilingual Plane, which is one unit. *)
Definition starts_in_bmp (s : jsstring) : bool :=
  match s with
  | [] => true
  | u :: _ => negb (high_surrogate u || low_surrogate u)
  end.

(** Text of the ASCII range: there a literal is its own UTF-8 text. *)
Definition ascii_only (s : string) : Prop :=
  Forall (fun c => (N_of_ascii c < 128)%N) (list_ascii_of_string s).

(** The integers of the 32-bit range. *)
Definition in_int32 (z : Z) : bool :=
  Z.leb (- 2147483648) z && Z.leb z 2147483647.

Record int32 : Type := {
  int32_value : Z;
  int32_range : in_int32 int32_value = true
}.

Definition int (z : Z) (H : in_int32 z = true) : int32 :=
  {| int32_value := z; int32_range := H |}.

(** The values a parsed request body can hold in a field.  [Undefined]
    is what destructuring yields for an absent field.  A number is an
    integer of the 32-bit range, which the driver binds as an integer and
    the engine prints in plain decimal.  A number with a fraction or
    beyond that range, which the driver binds as a double, is outside
    the model, and so are arrays and objects. *)
Inductive value : Type :=
| Undefined
| Null
| Bool (b : bool)
| Num (n : int32)
| Str (s : jsstring).

(** Evaluation either completes with a value or throws. *)
Inductive completion (A : Type) : Type :=
| Normal (a : A)
| Throw (e : string).
Arguments Normal {A} a.
Arguments Throw {A} e.

Definition bind {A B} (c : completion A) (k : A -> completion B)
  : completion B :=
  match c with
  | Normal a => k a
  | Throw e => Throw e
  end.

Definition type_error_undefined : string :=
  "TypeError: Cannot read properties of undefined (reading '0')".
Definition type_error_null : string :=
  "TypeError: Cannot read properties of null (reading '0')".

(** [v[0]]: property access throws on [undefined] and [null]; on a
    string it is the one-unit string at index 0, or [undefined] when the
    string is empty; booleans and numbers have no property [0].  The
    result is [None] for [undefined] and [Some u] for the string of the
    one unit [u]. *)
Definition index0 (v : value) : completion (option code_unit) :=
  match v with
  | Undefined => Throw type_error_undefined
  | Null => Throw type_error_null
  | Str (u :: _) => Normal (Some u)
  | Str [] => Normal None
  | Bool _ | Num _ => Normal None
  end.

(** [x || ''] for [x] the result of [v[0]]: a one-unit string is truthy
    and is kept, [undefined] gives way to the empty string. *)
Definition or_empty (x : option code_unit) : jsstring :=
  match x with
  | Some u => [u]
  | None => []
  end.

(** [undefined] and [null], the two values without properties. *)
Definition nullish (v : value) : bool :=
  match v with
  | Undefined | Null => true
  | _ => false
  end.

(** The string a value is printed as in a template literal. *)
Definition to_string (v : value) : jsstring :=
  match v with
  | Undefined => lit "undefined"
  | Null => lit "null"
  | Bool true => lit "true"
  | Bool false => lit "false"
  | Num n => lit (decimal (int32_value n))
  | Str s => s
  end.

(** [arr[i]] on an array of string literals with a numeric index: out of
    range reads give [undefined]. *)
Definition array_get (arr : list string) (i : Z) : value :=
  if Z.ltb i 0 then Undefined
  else match nth_error arr (Z.to_nat i) with
       | Some s => Str (lit s)
       | None => Undefined
       end.

(** [Math.floor(r * n)] for the number [r] returned by [Math.random()].
    The handler multiplies by 4; the product of a double below 1 with a
    small power of two is exact in binary floating point, so the rational
    computation is the one the engine does. *)
Definition floor_mul (r : Q) (n : Z) : Z := Qfloor (r * inject_Z n).

End Js.

(** A literal can be written where a string is expected. *)
Coercion Js.lit : string >-> Js.jsstring.

(* ------------------------------------------------------------------ *)
(** ** JSON documents sent by [res.json] *)

#[warnings="-register-all"]
Inductive json : Type :=
| JNull
| JNumber (z : Z)
| JString (s : string)
| JArray (l : list json)
| JObject (fields : list (string * json)).

Record response : Type := { status : Z; payload : json }.

(** [res.json(x)] answers with status 200; [res.status(c).json(x)] with
    [c]. *)
Definition res_json (x : json) : response := {| status := 200; payload := x |}.
Definition res_status_json (c : Z) (x : json) : response :=
  {| status := c; payload := x |}.

(** The body every handler sends on a store failure. *)
Definition error_body (msg : string) : json := JObject [("error", JString msg)].

(* ------------------------------------------------------------------ *)
(** ** The store *)

Module Sql.

(** A stored value.  The columns of the schema hold NULL, integers or
    text; text is kept as its UTF-8 bytes. *)
Inductive sqlval : Type :=
| SNull
| SInt (z : Z)
| SText (s : string).

(** The comparison [a = b] of SQL used as a condition: it holds only
    between two non-NULL values of the same class that are equal. *)
Definition sql_eq (a b : sqlval) : bool :=
  match a, b with
  | SInt x, SInt y => Z.eqb x y
  | SText x, SText y => String.eqb x y
  | _, _ => false
  end.

Definition is_null (v : sqlval) : bool :=
  match v with SNull => true | _ => false end.

(** How the driver binds a JavaScript value to a [?]: a string as its
    UTF-8 text, a number of the 32-bit range as an integer, booleans as
    1 and 0, [null] as NULL; an [undefined] parameter is left unbound,
    which the store reads as NULL. *)
Definition bind_param (v : Js.value) : sqlval :=
  match v with
  | Js.Undefined | Js.Null => SNull
  | Js.Bool true => SInt 1
  | Js.Bool false => SInt 0
  | Js.Num n => SInt (Js.int32_value n)
  | Js.Str s => SText (Js.utf8 s)
  end.

(** Column affinity TEXT: an integer is stored as its decimal text. *)
Definition text_affinity (v : sqlval) : sqlval :=
  match v with
  | SInt z => SText (decimal z)
  | _ => v
  end.

Definition min_rowid : Z := - 2 ^ 63.
Definition max_rowid : Z := 2 ^ 63 - 1.

(** Column affinity INTEGER: text that spells a decimal integer of the
    64-bit range is stored as that integer; other text stays text.
    (Padded, fractional and exponent spellings, which the engine also
    converts, are not spelled out here; no statement below depends on
    them.) *)
Definition integer_affinity (v : sqlval) : sqlval :=
  match v with
  | SText s =>
      match NilZero.int_of_string s with
      | Some d =>
          let z := Z.of_int d in
          if Z.leb min_rowid z && Z.leb z max_rowid then SInt z else v
      | None => v
      end
  | _ => v
  end.

Definition to_json (v : sqlval) : json :=
  match v with
  | SNull => JNull
  | SInt z => JNumber z
  | SText s => JString s
  end.

(** *** Rows of the five tables, column by column as [CREATE TABLE]
    declares them.  The [id] of every table is an
    [INTEGER PRIMARY KEY AUTOINCREMENT]. *)

Record department_row : Type := {
  d_id : Z;
  d_name : sqlval
}.

Record faculty_row : Type := {
  f_id : Z;
  f_first_name : sqlval;
  f_last_name : sqlval;
  f_email : sqlval;
  f_department_id : sqlval;
  f_avatar_url : sqlval
}.

Record student_row : Type := {
  s_id : Z;
  s_student_id : sqlval;
  s_first_name : sqlval;
  s_last_name : sqlval;
  s_email : sqlval;
  s_department_id : sqlval;
  s_status : sqlval;
  s_class_year : sqlval;
  s_avatar_initials : sqlval;
  s_avatar_color : sqlval
}.

Record course_row : Type := {
  c_id : Z;
  c_course_code : sqlval;
  c_name : sqlval;
  c_department_id : sqlval;
  c_isActive : sqlval
}.

Record schedule_row : Type := {
  h_id : Z;
  h_course_id : sqlval;
  h_faculty_id : sqlval;
  h_start_time : sqlval;
  h_location : sqlval
}.

(** A table: its rows in insertion order and the AUTOINCREMENT counter
    the store keeps for it (the largest id ever handed out). *)
Record table (R : Type) : Type := {
  rows : list R;
  seq : Z
}.
Arguments rows {R} t.
Arguments seq {R} t.

Definition empty_table {R : Type} : table R := {| rows := []; seq := 0 |}.

(** The database file: each table exists or not. *)
Record store : Type := {
  departments : option (table department_row);
  faculty : option (table faculty_row);
  students : option (table student_row);
  courses : option (table course_row);
  schedule : option (table schedule_row)
}.

(** A database file that has just been created. *)
Definition fresh : store :=
  {| departments := None; faculty := None; students := None;
     courses := None; schedule := None |}.

(** The rows of a table, none when the table does not exist. *)
Definition rows_of {R : Type} (t : option (table R)) : list R :=
  match t with
  | Some t => rows t
  | None => []
  end.

(** *** Failures of a statement *)

Inductive sqlerror : Type :=
| NoSuchTable (name : string)
| NotNullFailed (column : string)
| CheckFailed (name : string)
| UniqueFailed (column : string)
| Full
| Fault (msg : string).

(** [err.message] as the driver words it. *)
Definition message (e : sqlerror) : string :=
  match e with
  | NoSuchTable n => "SQLITE_ERROR: no such table: " ++ n
  | NotNullFailed c => "SQLITE_CONSTRAINT: NOT NULL constraint failed: " ++ c
  | CheckFailed n => "SQLITE_CONSTRAINT: CHECK constraint failed: " ++ n
  | UniqueFailed c => "SQLITE_CONSTRAINT: UNIQUE constraint failed: " ++ c
  | Full => "SQLITE_FULL: database or disk is full"
  | Fault m => m
  end.

(** The result of running a statement: an error, or a value together
    with the store it leaves. *)
Definition result (A : Type) : Type := (sqlerror + A)%type.

(** A failure of the storage layer itself (I/O, lock, corruption),
    given from outside: [Some msg] makes the statement fail with [msg]
    and leaves the store as it was. *)
Definition fault : Type := option string.

(** The id AUTOINCREMENT gives the next row: one more than the largest
    id the table holds or ever handed out; none is left past the
    largest 64-bit integer. *)
Definition top_rowid {R : Type} (key : R -> Z) (t : table R) : Z :=
  fold_right Z.max (seq t) (map key (rows t)).

Definition next_rowid {R : Type} (key : R -> Z) (t : table R) : option Z :=
  let m := top_rowid key t in
  if Z.ltb m max_rowid then Some (m + 1) else None.

(** The same for a table that may not exist yet: a new table starts
    from 0. *)
Definition top_of {R : Type} (key : R -> Z) (t : option (table R)) : Z :=
  match t with
  | Some t => top_rowid key t
  | None => 0
  end.

(** [n] more ids can be handed out. *)
Definition ids_left {R : Type} (n : Z) (key : R -> Z) (t : option (table R))
  : bool :=
  Z.leb (top_of key t + n) max_rowid.

(** [CREATE TABLE IF NOT EXISTS]: a no-op on a table that exists. *)
Definition create_if_not_exists {R : Type} (t : option (table R))
  : option (table R) :=
  match t with
  | Some t => Some t
  | None => Some empty_table
  end.

(** *** INSERT

    One row: the store picks the id, applies the column affinities,
    then checks NOT NULL, CHECK and UNIQUE in that order.  Foreign keys
    are declared but the connection never turns their enforcement on,
    so they are not checked. *)
Section Insert.
Context {R : Type}.
Variable key : R -> Z.
Variable affinity : R -> R.
Variable violation : list R -> R -> option sqlerror.

Definition insert_row (mk : Z -> R) (t : table R) : result (table R) :=
  match next_rowid key t with
  | None => inl Full
  | Some id =>
      let r := affinity (mk id) in
      match violation (rows t) r with
      | Some e => inl e
      | None => inr {| rows := rows t ++ [r]; seq := id |}
      end
  end.

(** A [VALUES] list with several rows is one statement: the first row
    that fails undoes the rows before it. *)
Fixpoint insert_rows (mks : list (Z -> R)) (t : table R)
  : result (table R) :=
  match mks with
  | [] => inr t
  | mk :: rest =>
      match insert_row mk t with
      | inl e => inl e
      | inr t' => insert_rows rest t'
      end
  end.

Definition insert_into (name : string) (f : fault) (mks : list (Z -> R))
    (t : option (table R)) : result (table R) :=
  match f with
  | Some m => inl (Fault m)
  | None =>
      match t with
      | None => inl (NoSuchTable name)
      | Some t => insert_rows mks t
      end
  end.
End Insert.

(** [SELECT count( * ) FROM t WHERE p] *)
Definition select_count {R : Type} (name : string) (p : R -> bool)
    (f : fault) (t : option (table R)) : result Z :=
  match f with
  | Some m => inl (Fault m)
  | None =>
      match t with
      | None => inl (NoSuchTable name)
      | Some t => inr (Z.of_nat (List.length (filter p (rows t))))
      end
  end.

(** *** The constraints of each table *)

Definition first_violation (checks : list (bool * sqlerror))
  : option sqlerror :=
  match find fst checks with
  | Some (_, e) => Some e
  | None => None
  end.

Definition department_affinity (r : department_row) : department_row :=
  {| d_id := d_id r; d_name := text_affinity (d_name r) |}.

Definition department_violation (_ : list department_row)
    (r : department_row) : option sqlerror :=
  first_violation [(is_null (d_name r), NotNullFailed "departments.name")].

Definition faculty_affinity (r : faculty_row) : faculty_row :=
  {| f_id := f_id r;
     f_first_name := text_affinity (f_first_name r);
     f_last_name := text_affinity (f_last_name r);
     f_email := text_affinity (f_email r);
     f_department_id := integer_affinity (f_department_id r);
     f_avatar_url := text_affinity (f_avatar_url r) |}.

Definition faculty_violation (_ : list faculty_row) (r : faculty_row)
  : option sqlerror :=
  first_violation
    [(is_null (f_first_name r), NotNullFailed "faculty.first_name");
     (is_null (f_last_name r), NotNullFailed "faculty.last_name")].

Definition student_affinity (r : student_row) : student_row :=
  {| s_id := s_id r;
     s_student_id := text_affinity (s_student_id r);
     s_first_name := text_affinity (s_first_name r);
     s_last_name := text_affinity (s_last_name r);
     s_email := text_affinity (s_email r);
     s_department_id := integer_affinity (s_department_id r);
     s_status := text_affinity (s_status r);
     s_class_year := integer_affinity (s_class_year r);
     s_avatar_initials := text_affinity (s_avatar_initials r);
     s_avatar_color := text_affinity (s_avatar_color r) |}.

(** [CHECK(status IN ('Admitted', 'Pending', 'Waitlist'))]: a CHECK
    fails only when its condition is false, so NULL passes. *)
Definition status_ok (v : sqlval) : bool :=
  is_null v
  || existsb (sql_eq v) [SText "Admitted"; SText "Pending"; SText "Waitlist"].

(** [student_id TEXT UNIQUE NOT NULL]: two NULLs never collide, two
    equal texts do. *)
Definition student_id_taken (rs : list student_row) (v : sqlval) : bool :=
  existsb (fun r => sql_eq (s_student_id r) v) rs.

Definition student_violation (rs : list student_row) (r : student_row)
  : option sqlerror :=
  first_violation
    [(is_null (s_student_id r), NotNullFailed "students.student_id");
     (is_null (s_first_name r), NotNullFailed "students.first_name");
     (is_null (s_last_name r), NotNullFailed "students.last_name");
     (negb (status_ok (s_status r)), CheckFailed "status");
     (student_id_taken rs (s_student_id r),
      UniqueFailed "students.student_id")].

Definition course_affinity (r : course_row) : course_row :=
  {| c_id := c_id r;
     c_course_code := text_affinity (c_course_code r);
     c_name := text_affinity (c_name r);
     c_department_id := integer_affinity (c_department_id r);
     c_isActive := integer_affinity (c_isActive r) |}.

Definition course_code_taken (rs : list course_row) (v : sqlval) : bool :=
  existsb (fun r => sql_eq (c_course_code r) v) rs.

Definition course_violation (rs : list course_row) (r : course_row)
  : option sqlerror :=
  first_violation
    [(is_null (c_course_code r), NotNullFailed "courses.course_code");
     (is_null (c_name r), NotNullFailed "courses.name");
     (course_code_taken rs (c_course_code r),
      UniqueFailed "courses.course_code")].

Definition insert_departments :=
  insert_into d_id department_affinity department_violation "departments".
Definition insert_faculty :=
  insert_into f_id faculty_affinity faculty_violation "faculty".
Definition insert_students :=
  insert_into s_id student_affinity student_violation "students".
Definition insert_courses :=
  insert_into c_id course_affinity course_violation "courses".

(** Replacing one table of the store. *)
Definition with_departments (t : option (table department_row)) (db : store) :=
  {| departments := t; faculty := faculty db; students := students db;
     courses := courses db; schedule := schedule db |}.
Definition with_faculty (t : option (table faculty_row)) (db : store) :=
  {| departments := departments db; faculty := t; students := students db;
     courses := courses db; schedule := schedule db |}.
Definition with_students (t : option (table student_row)) (db : store) :=
  {| departments := departments db; faculty := faculty db; students := t;
     courses := courses db; schedule := schedule db |}.
Definition with_courses (t : option (table course_row)) (db : store) :=
  {| departments := departments db; faculty := faculty db;
     students := students db; courses := t; schedule := schedule db |}.
Definition with_schedule (t : option (table schedule_row)) (db : store) :=
  {| departments := departments db; faculty := faculty db;
     students := students db; courses := courses db; schedule := t |}.

End Sql.

(* ------------------------------------------------------------------ *)
(** ** The server *)

Module Server.
Import Sql.

(** [req.body] after parsing, an object: the fields the handlers
    destructure.  A field the request does not carry is
    [Js.Undefined]. *)
Record body : Type := {
  student_id : Js.value;
  first_name : Js.value;
  last_name : Js.value;
  email : Js.value;
  department_id : Js.value;
  class_year : Js.value
}.

(** What running a handler comes to: it threw before answering, it
    answered with a JSON document, or it sent a file. *)
Inductive outcome : Type :=
| Threw (e : string)
| Sent (r : response)
| SentFile (path : string).

(** *** POST /api/students *)

(** [(first_name[0] || '') + (last_name[0] || '')], operands evaluated
    left to right; both operands of [+] are strings, which it
    concatenates. *)
Definition initials (b : body) : Js.completion Js.value :=
  Js.bind (Js.index0 (first_name b)) (fun f0 =>
  Js.bind (Js.index0 (last_name b)) (fun l0 =>
  Js.Normal (Js.Str (Js.or_empty f0 ++ Js.or_empty l0)%list))).

Definition colors : list string := ["blue"; "amber"; "rose"; "cyan"].

(** [colors[Math.floor(Math.random() * colors.length)]], [random] being
    the number [Math.random()] returned. *)
Definition randomColor (random : Q) : Js.value :=
  Js.array_get colors (Js.floor_mul random (Z.of_nat (List.length colors))).

(** The row the INSERT of the handler describes: eight bound
    parameters, [status] left to its DEFAULT. *)
Definition student_params (b : body) (ini color : Js.value) (id : Z)
  : student_row :=
  {| s_id := id;
     s_student_id := bind_param (student_id b);
     s_first_name := bind_param (first_name b);
     s_last_name := bind_param (last_name b);
     s_email := bind_param (email b);
     s_department_id := bind_param (department_id b);
     s_status := SText "Pending";
     s_class_year := bind_param (class_year b);
     s_avatar_initials := bind_param ini;
     s_avatar_color := bind_param color |}.

(** The three parameters bound to the NOT NULL columns are not NULL. *)
Definition binds_not_null (b : body) : bool :=
  negb (is_null (bind_param (student_id b)))
  && negb (is_null (bind_param (first_name b)))
  && negb (is_null (bind_param (last_name b))).

Definition saved (what : string) (lastID : Z) : json :=
  JObject [("message", JString (what ++ " saved successfully!"));
           ("id", JNumber lastID)].

Definition post_api_students (f : fault) (random : Q) (b : body)
    (db : store) : outcome * store :=
  match initials b with
  | Js.Throw e => (Threw e, db)
  | Js.Normal ini =>
      let color := randomColor random in
      match insert_students f [student_params b ini color] (students db) with
      | inl err => (Sent (res_status_json 500 (error_body (message err))), db)
      | inr t =>
          (Sent (res_json (saved "Student" (seq t))),
           with_students (Some t) db)
      end
  end.

(** *** POST /api/faculty *)

(** The template literal of the avatar address. *)
Definition avatar (b : body) : Js.value :=
  Js.Str (Js.lit "https://ui-avatars.com/api/?name="
          ++ Js.to_string (first_name b)
          ++ Js.lit "+" ++ Js.to_string (last_name b)
          ++ Js.lit "&background=random")%list.

Definition faculty_params (b : body) (id : Z) : faculty_row :=
  {| f_id := id;
     f_first_name := bind_param (first_name b);
     f_last_name := bind_param (last_name b);
     f_email := bind_param (email b);
     f_department_id := bind_param (department_id b);
     f_avatar_url := bind_param (avatar b) |}.

Definition post_api_faculty (f : fault) (b : body) (db : store)
  : outcome * store :=
  match insert_faculty f [faculty_params b] (faculty db) with
  | inl err => (Sent (res_status_json 500 (error_body (message err))), db)
  | inr t =>
      (Sent (res_json (saved "Faculty" (seq t))), with_faculty (Some t) db)
  end.

(** *** GET /api/stats *)

(** [WHERE isActive = 1] *)
Definition isActive (c : course_row) : bool := sql_eq (c_isActive c) (SInt 1).

Definition all_rows {R : Type} (_ : R) : bool := true.

(** The first rejection in a list of settled promises. *)
Definition rejected (p : result Z) : bool :=
  match p with
  | inl _ => true
  | inr _ => false
  end.

Definition first_rejected (ps : list (result Z)) : option sqlerror :=
  match find rejected ps with
  | Some (inl e) => Some e
  | _ => None
  end.

Definition fulfilled (p : result Z) : json :=
  match p with
  | inr n => JNumber n
  | inl _ => JNull
  end.

(** [Promise.all(ps)]: rejected with the reason of the promise that
    rejects first in time, fulfilled with all the values in the order of
    [ps] otherwise.  [order] lists the positions of [ps] in the order
    the promises settle, which the handler does not control. *)
Definition promise_all (order : list nat) (ps : list (result Z))
  : sqlerror + list json :=
  match first_rejected (map (fun i => nth i ps (inr 0)) order ++ ps) with
  | Some e => inl e
  | None => inr (map fulfilled ps)
  end.

(** The three counts [p1], [p2], [p3], each settled with its count or
    rejected with the error of its query. *)
Definition stats_queries (f1 f2 f3 : fault) (db : store) : list (result Z) :=
  [select_count "students" all_rows f1 (students db);
   select_count "courses" isActive f2 (courses db);
   select_count "faculty" all_rows f3 (faculty db)].

Definition get_api_stats (f1 f2 f3 : fault) (order : list nat) (db : store)
  : outcome :=
  match promise_all order (stats_queries f1 f2 f3 db) with
  | inr results =>
      Sent (res_json (JObject
        [("total_students", nth 0 results JNull);
         ("active_courses", nth 1 results JNull);
         ("faculty_staff", nth 2 results JNull);
         ("fee_collection", JString "$2.4M")]))
  | inl err => Sent (res_status_json 500 (error_body (message err)))
  end.

(** *** GET /api/enrollments/recent *)

(** A row of the join: the student columns and [department_name]. *)
Definition joined : Type := (student_row * sqlval)%type.

(** [students s LEFT JOIN departments d ON s.department_id = d.id]:
    every student gives one row per matching department, and one row
    with a NULL [department_name] when none matches. *)
Definition left_join (ss : list student_row) (ds : list department_row)
  : list joined :=
  flat_map
    (fun s =>
       match filter (fun d => sql_eq (s_department_id s) (SInt (d_id d))) ds with
       | [] => [(s, SNull)]
       | ms => map (fun d => (s, d_name d)) ms
       end)
    ss.

(** [ORDER BY s.id DESC], by insertion. *)
Fixpoint insert_desc (x : joined) (l : list joined) : list joined :=
  match l with
  | [] => [x]
  | y :: l' =>
      if Z.leb (s_id (fst y)) (s_id (fst x)) then x :: l
      else y :: insert_desc x l'
  end.

Definition order_by_id_desc (l : list joined) : list joined :=
  fold_right insert_desc [] l.

(** The order of the result: ids never increase from a row to a later
    one. *)
Definition desc (a b : joined) : Prop := s_id (fst b) <= s_id (fst a).

(** How many students have an id at least that of [s], [s] included:
    its rank from the most recent. *)
Definition rank (s : student_row) (ss : list student_row) : nat :=
  List.length (filter (fun s' => Z.leb (s_id s) (s_id s')) ss).

(** [LIMIT 5] *)
Definition limit : nat := 5.

Definition select_recent (f : fault) (db : store) : result (list joined) :=
  match f with
  | Some m => inl (Fault m)
  | None =>
      match students db, departments db with
      | None, _ => inl (NoSuchTable "students")
      | _, None => inl (NoSuchTable "departments")
      | Some ss, Some ds =>
          inr (firstn limit (order_by_id_desc (left_join (rows ss) (rows ds))))
      end
  end.

(** The object the driver builds for a result row: the columns of
    [s.*] in table order, then [department_name]. *)
Definition row_json (j : joined) : json :=
  let s := fst j in
  JObject [("id", JNumber (s_id s));
           ("student_id", to_json (s_student_id s));
           ("first_name", to_json (s_first_name s));
           ("last_name", to_json (s_last_name s));
           ("email", to_json (s_email s));
           ("department_id", to_json (s_department_id s));
           ("status", to_json (s_status s));
           ("class_year", to_json (s_class_year s));
           ("avatar_initials", to_json (s_avatar_initials s));
           ("avatar_color", to_json (s_avatar_color s));
           ("department_name", to_json (snd j))].

Definition get_api_enrollments_recent (f : fault) (db : store) : outcome :=
  match select_recent f db with
  | inl err => Sent (res_status_json 500 (error_body (message err)))
  | inr rs => Sent (res_json (JObject [("data", JArray (map row_json rs))]))
  end.

(** The invariant [student_id TEXT UNIQUE NOT NULL] keeps: no stored
    [student_id] is NULL and no two rows share one. *)
Definition student_ids_distinct (rs : list student_row) : Prop :=
  Forall (fun r => s_student_id r <> SNull) rs
  /\ NoDup (map s_student_id rs).

(** *** Start-up *)

(** The process: serving over a store, or gone.  A statement run
    without a callback reports its failure as an ['error'] event on the
    statement; the program listens to none, and an ['error'] event
    nobody listens to is thrown and ends the process.  The database file
    outlives the process. *)
Inductive process : Type :=
| Running (db : store)
| Exited (db : store) (e : string).

Definition store_of (p : process) : store :=
  match p with
  | Running db => db
  | Exited db _ => db
  end.

(** The rows of the seed, [email] and [isActive] left to their
    defaults. *)
Definition seed_departments : list (Z -> department_row) :=
  map (fun n id => {| d_id := id; d_name := SText n |})
      ["Computer Science"; "Architecture"; "Engineering"; "Business"].

Definition seed_faculty : list (Z -> faculty_row) :=
  map (fun '(fn, ln, url) id =>
         {| f_id := id; f_first_name := SText fn; f_last_name := SText ln;
            f_email := SNull; f_department_id := SInt 1;
            f_avatar_url := SText url |})
      [("Alan", "Turing",
        "https://ui-avatars.com/api/?name=Prof+A&background=random");
       ("Grace", "Hopper",
        "https://ui-avatars.com/api/?name=Prof+G&background=random")].

Definition seed_students : list (Z -> student_row) :=
  [fun id =>
     {| s_id := id; s_student_id := SText "#ST-2024-001";
        s_first_name := SText "John"; s_last_name := SText "Doe";
        s_email := SNull; s_department_id := SInt 1;
        s_status := SText "Admitted"; s_class_year := SInt 2026;
        s_avatar_initials := SText "JD"; s_avatar_color := SText "blue" |}].

Definition seed_courses : list (Z -> course_row) :=
  [fun id =>
     {| c_id := id; c_course_code := SText "CS-101";
        c_name := SText "Data Structures"; c_department_id := SInt 1;
        c_isActive := SInt 1 |}].

(** [db.run(sql)] with no callback, on one table: the table after the
    statement and the failure nobody handles, if any. *)
Definition run_unhandled {R : Type} (r : result (table R))
    (old : option (table R)) : option (table R) * option sqlerror :=
  match r with
  | inl e => (old, Some e)
  | inr t => (Some t, None)
  end.

Definition first_error (es : list (option sqlerror)) : option sqlerror :=
  match find (fun e => match e with Some _ => true | None => false end) es with
  | Some e => e
  | None => None
  end.

(** The statements of start-up are numbered in the order they are
    issued: 0 to 4 the five [CREATE TABLE], 5 the count of departments,
    6 to 9 the four INSERT of the seed.  [io k] is the storage failure,
    if any, that hits statement [k]. *)

(** The body of the seeding branch.  The four INSERT are issued
    together from the callback of the count, outside [db.serialize];
    they touch four different tables, so the outcome does not depend on
    the order the store runs them in.  When one of them fails the
    process ends; the store then holds what the others wrote. *)
Definition seed (io : nat -> fault) (db : store) : process :=
  let '(d, e1) :=
    run_unhandled (insert_departments (io 6%nat) seed_departments (departments db))
                  (departments db) in
  let '(fa, e2) :=
    run_unhandled (insert_faculty (io 7%nat) seed_faculty (faculty db))
                  (faculty db) in
  let '(s, e3) :=
    run_unhandled (insert_students (io 8%nat) seed_students (students db))
                  (students db) in
  let '(c, e4) :=
    run_unhandled (insert_courses (io 9%nat) seed_courses (courses db))
                  (courses db) in
  let db' := {| departments := d; faculty := fa; students := s;
                courses := c; schedule := schedule db |} in
  match first_error [e1; e2; e3; e4] with
  | Some e => Exited db' (message e)
  | None => Running db'
  end.

(** One [CREATE TABLE IF NOT EXISTS] inside [db.serialize], run without
    a callback: on failure the process ends before the next statement. *)
Definition create (f : fault) (mk : store -> store)
    (next : store -> process) (db : store) : process :=
  match f with
  | Some m => Exited db m
  | None => next (mk db)
  end.

(** The callback of [SELECT count( * ) as count FROM departments]:
    it seeds when [row && row.count === 0], and does nothing on an
    error, where [row] is undefined. *)
Definition seed_if_empty (io : nat -> fault) (db : store) : process :=
  match select_count "departments" all_rows (io 5%nat) (departments db) with
  | inl _ => Running db
  | inr n => if Z.eqb n 0 then seed io db else Running db
  end.

Definition initializeDatabase (io : nat -> fault) (db : store) : process :=
  create (io 0%nat)
    (fun db => with_departments (create_if_not_exists (departments db)) db)
  (create (io 1%nat)
    (fun db => with_faculty (create_if_not_exists (faculty db)) db)
  (create (io 2%nat)
    (fun db => with_students (create_if_not_exists (students db)) db)
  (create (io 3%nat)
    (fun db => with_courses (create_if_not_exists (courses db)) db)
  (create (io 4%nat)
    (fun db => with_schedule (create_if_not_exists (schedule db)) db)
  (seed_if_empty io))))) db.

(** The store once the five [CREATE TABLE IF NOT EXISTS] went through. *)
Definition create_all (db : store) : store :=
  {| departments := create_if_not_exists (departments db);
     faculty := create_if_not_exists (faculty db);
     students := create_if_not_exists (students db);
     courses := create_if_not_exists (courses db);
     schedule := create_if_not_exists (schedule db) |}.

(** Two stores hold the same rows, table by table (a table that does
    not exist holds none). *)
Definition same_rows (db db' : store) : Prop :=
  rows_of (departments db) = rows_of (departments db')
  /\ rows_of (faculty db) = rows_of (faculty db')
  /\ rows_of (students db) = rows_of (students db')
  /\ rows_of (courses db) = rows_of (courses db')
  /\ rows_of (schedule db) = rows_of (schedule db').

(** The rows of a [VALUES] list with the ids [first], [first + 1], ... *)
Fixpoint numbered {R : Type} (first : Z) (mks : list (Z -> R)) : list R :=
  match mks with
  | [] => []
  | mk :: rest => mk first :: numbered (first + 1) rest
  end.

(** The unique keys of the seed are not in use. *)
Definition seed_keys_free (db : store) : bool :=
  negb (student_id_taken (rows_of (students db)) (SText "#ST-2024-001"))
  && negb (course_code_taken (rows_of (courses db)) (SText "CS-101")).

(** Each seeded table has ids left for its seed rows. *)
Definition seed_ids_left (db : store) : bool :=
  ids_left 4 d_id (departments db) && ids_left 2 f_id (faculty db)
  && ids_left 1 s_id (students db) && ids_left 1 c_id (courses db).

(** Start-up with a storage layer that does not fail. *)
Definition healthy : nat -> fault := fun _ => None.

(** *** Routing *)

(** A request as the middleware chain sorts it: a file that
    [express.static] finds under [public], one of the four routes, or
    anything else, of which the fallback reads [req.url]. *)
Inductive request : Type :=
| StaticFile (path : string)
| PostStudents (b : body)
| PostFaculty (b : body)
| GetStats
| GetRecent
| Unmatched (url : string).

(** What a request meets besides the store: the failures of the storage
    layer for the statements it issues (numbered in issue order), the
    number [Math.random()] returns and the order in which the promises of
    the stats handler settle. *)
Record ambient : Type := {
  io_of : nat -> fault;
  random_of : Q;
  settle_of : list nat
}.

(** The last middleware: the application shell outside [/api], a 404
    under it. *)
Definition fallback (url : string) : outcome :=
  if negb (prefix "/api" url) then SentFile "public/index.html"
  else Sent (res_status_json 404 (error_body "API route not found")).

Definition app (a : ambient) (r : request) (db : store) : outcome * store :=
  match r with
  | StaticFile path => (SentFile ("public" ++ path), db)
  | PostStudents b => post_api_students (io_of a 0%nat) (random_of a) b db
  | PostFaculty b => post_api_faculty (io_of a 0%nat) b db
  | GetStats =>
      (get_api_stats (io_of a 0%nat) (io_of a 1%nat) (io_of a 2%nat)
                     (settle_of a) db, db)
  | GetRecent => (get_api_enrollments_recent (io_of a 0%nat) db, db)
  | Unmatched url => (fallback url, db)
  end.

(** A request reaches the handlers only while the process runs. *)
Definition serve (a : ambient) (r : request) (p : process)
  : option outcome * process :=
  match p with
  | Running db => let '(o, db') := app a r db in (Some o, Running db')
  | Exited _ _ => (None, p)
  end.

End Server.

(* ------------------------------------------------------------------ *)
(** ** Worked stores and requests *)

Module Worked.
Import Sql Server.

(** The store after the first start-up on a new database file. *)
Definition seeded : store :=
  Eval vm_compute in store_of (initializeDatabase healthy fresh).

(** A creation request that names no department. *)
Definition john : body :=
  {| student_id := Js.Str "#ST-2024-002";
     first_name := Js.Str "John";
     last_name := Js.Str "Doe";
     email := Js.Str "john@academia.test";
     department_id := Js.Undefined;
     class_year := Js.Num (Js.int 2027 eq_refl) |}.

(** The same request without its [last_name]. *)
Definition nameless : body :=
  {| student_id := Js.Str "#ST-2024-003";
     first_name := Js.Str "Jane";
     last_name := Js.Undefined;
     email := Js.Null;
     department_id := Js.Num (Js.int 1 eq_refl);
     class_year := Js.Num (Js.int 2027 eq_refl) |}.

(** The request [john] sent once more, without its [last_name]. *)
Definition john_again : body :=
  {| student_id := Js.Str "#ST-2024-002";
     first_name := Js.Str "John";
     last_name := Js.Undefined;
     email := Js.Str "john@academia.test";
     department_id := Js.Undefined;
     class_year := Js.Num (Js.int 2027 eq_refl) |}.

(** A name that starts beyond the Basic Multilingual Plane: the
    character U+20BB7, which is the units D842 DFB7, then U+7530. *)
Definition yoshida : Js.jsstring :=
  [Js.unit_of 55362; Js.unit_of 57271; Js.unit_of 30000].

Definition astral : body :=
  {| student_id := Js.Str "#ST-2024-004";
     first_name := Js.Str yoshida;
     last_name := Js.Str "Doe";
     email := Js.Null;
     department_id := Js.Null;
     class_year := Js.Null |}.

(** A name that starts with a character of two UTF-8 bytes, U+00C9, and
    an empty name. *)
Definition elodie : body :=
  {| student_id := Js.Str "#ST-2024-005";
     first_name := Js.Str (Js.unit_of 201 :: Js.lit "lodie");
     last_name := Js.Str [];
     email := Js.Null;
     department_id := Js.Null;
     class_year := Js.Null |}.

(** The store after [john] has been created over [seeded]. *)
Definition enrolled : store :=
  Eval vm_compute in snd (post_api_students None (3 # 4) john seeded).

Definition enrolled_students : table student_row :=
  Eval vm_compute in
    match students enrolled with
    | Some t => t
    | None => empty_table
    end.

Definition enrolled_departments : table department_row :=
  Eval vm_compute in
    match departments enrolled with
    | Some t => t
    | None => empty_table
    end.

(** The row [john] was given. *)
Definition john_row : student_row :=
  Eval vm_compute in
    nth 1 (rows enrolled_students)
        (student_params john Js.Undefined Js.Undefined 0).

(** Five more creations, each in department 1. *)
Definition newcomer (n : Z) : body :=
  {| student_id := Js.Str ("#ST-2025-" ++ decimal n);
     first_name := Js.Str "Ada";
     last_name := Js.Str "Lovelace";
     email := Js.Null;
     department_id := Js.Num (Js.int 1 eq_refl);
     class_year := Js.Num (Js.int 2029 eq_refl) |}.

(** [enrolled] with two more courses, one switched off and one whose
    [isActive] was set to NULL. *)
Definition retired : store :=
  Eval vm_compute in
    with_courses
      (Some {| rows := (rows_of (courses enrolled)
                        ++ [{| c_id := 2; c_course_code := SText "AR-201";
                               c_name := SText "Drafting";
                               c_department_id := SInt 2;
                               c_isActive := SInt 0 |};
                            {| c_id := 3; c_course_code := SText "EN-150";
                               c_name := SText "Statics";
                               c_department_id := SInt 3;
                               c_isActive := SNull |}])%list;
               seq := 3 |})
      enrolled.

Definition crowded : store :=
  Eval vm_compute in
    fold_left (fun db b => snd (post_api_students None 0 b db))
              (map newcomer [1; 2; 3; 4; 5]) enrolled.

Definition crowded_view : list joined :=
  Eval vm_compute in
    match select_recent None crowded with
    | inr rs => rs
    | inl _ => []
    end.

(** A storage layer that fails the INSERT into [departments] (statement
    6 of start-up) and nothing else. *)
Definition busy_once : nat -> fault :=
  fun k => if Nat.eqb k 6 then Some "SQLITE_IOERR: disk I/O error"
           else None.

(** The database file a first start-up leaves when that INSERT does not
    get written while the three other INSERT of the seed do:
    [departments] is empty, the seed student and course are stored. *)
Definition interrupted : store :=
  Eval vm_compute in store_of (initializeDatabase busy_once fresh).

(** A storage layer that fails the third [CREATE TABLE]. *)
Definition no_students_table : nat -> fault :=
  fun k => if Nat.eqb k 2 then Some "SQLITE_IOERR: disk I/O error"
           else None.

End Worked.

(* ------------------------------------------------------------------ *)
(** ** Notions the further properties are stated with *)

Module Derived.
Import Sql Server Worked.

(** What a name gives to the initials: its first unit when it is a
    string that has one, nothing otherwise. *)
Definition leading_unit (v : Js.value) : Js.jsstring :=
  match v with
  | Js.Str (u :: _) => [u]
  | _ => []
  end.

(** The ids of the students are pairwise distinct, and none is above the
    counter of the table. *)
Definition student_keys_sound (t : table student_row) : Prop :=
  NoDup (map s_id (rows t)) /\ Forall (fun r => s_id r <= seq t) (rows t).

(** The name of the department a [department_id] refers to, NULL when it
    refers to none. *)
Definition department_name_of (ds : list department_row) (v : sqlval)
  : sqlval :=
  match find (fun d => sql_eq v (SInt (d_id d))) ds with
  | Some d => d_name d
  | None => SNull
  end.

(** The five tables exist. *)
Definition tables_exist (db : store) : Prop :=
  departments db <> None /\ faculty db <> None /\ students db <> None
  /\ courses db <> None /\ schedule db <> None.

(** [db'] holds the rows of [db], in their order, and possibly more
    after them. *)
Definition extends (db db' : store) : Prop :=
  (exists more, rows_of (departments db') = (rows_of (departments db) ++ more)%list)
  /\ (exists more, rows_of (faculty db') = (rows_of (faculty db) ++ more)%list)
  /\ (exists more, rows_of (students db') = (rows_of (students db) ++ more)%list)
  /\ (exists more, rows_of (courses db') = (rows_of (courses db) ++ more)%list)
  /\ (exists more, rows_of (schedule db') = (rows_of (schedule db) ++ more)%list).

(** The counters of a stats document. *)
Definition stats_body (total_students active_courses faculty_staff : Z)
  : json :=
  JObject [("total_students", JNumber total_students);
           ("active_courses", JNumber active_courses);
           ("faculty_staff", JNumber faculty_staff);
           ("fee_collection", JString "$2.4M")].

(** A creation request with a numeric [student_id], and the same with
    the number spelled as a string. *)
Definition numbered_request (sid : Js.value) : body :=
  {| student_id := sid;
     first_name := Js.Str "Mary";
     last_name := Js.Str "Shelley";
     email := Js.Null;
     department_id := Js.Str "2";
     class_year := Js.Num (Js.int 2030 eq_refl) |}.

(** A creation request that carries no [student_id]. *)
Definition anonymous : body :=
  {| student_id := Js.Undefined;
     first_name := Js.Str "Mary";
     last_name := Js.Str "Shelley";
     email := Js.Null;
     department_id := Js.Num (Js.int 2 eq_refl);
     class_year := Js.Num (Js.int 2030 eq_refl) |}.

(** A faculty request. *)
Definition lecturer : body :=
  {| student_id := Js.Undefined;
     first_name := Js.Str "Emmy";
     last_name := Js.Str "Noether";
     email := Js.Str "emmy@academia.test";
     department_id := Js.Num (Js.int 3 eq_refl);
     class_year := Js.Undefined |}.

(** A creation request whose [first_name] is a number. *)
Definition numeric_name : body :=
  {| student_id := Js.Str "#ST-2024-042";
     first_name := Js.Num (Js.int 42 eq_refl);
     last_name := Js.Str "Doe";
     email := Js.Null;
     department_id := Js.Null;
     class_year := Js.Null |}.

(** [seeded] after the creation of a student with the numeric
    [student_id] 7. *)
Definition with_seven : store :=
  Eval vm_compute in
    snd (post_api_students None 0 (numbered_request (Js.Num (Js.int 7 eq_refl))) seeded).

(** [enrolled] after one more creation. *)
Definition enrolled_twice : store :=
  Eval vm_compute in snd (post_api_students None 0 (newcomer 1) enrolled).

(** [seeded] after the creation of [lecturer]. *)
Definition staffed : store :=
  Eval vm_compute in snd (post_api_faculty None lecturer seeded).

Definition seeded_students : table student_row :=
  Eval vm_compute in
    match students seeded with
    | Some t => t
    | None => empty_table
    end.

Definition seeded_faculty : table faculty_row :=
  Eval vm_compute in
    match faculty seeded with
    | Some t => t
    | None => empty_table
    end.

(** The view over [enrolled]. *)
Definition enrolled_view : list joined :=
  Eval vm_compute in
    match select_recent None enrolled with
    | inr rs => rs
    | inl _ => []
    end.

(** A storage layer that fails the count of departments (statement 5 of
    start-up) and nothing else. *)
Definition count_fails : nat -> fault :=
  fun k => if Nat.eqb k 5 then Some "SQLITE_BUSY: database is locked"
           else None.

End Derived.

(* ------------------------------------------------------------------ *)
(** ** Properties *)

Import Sql Server Worked.

(** *** Facts about the store *)

Section InsertFacts.
Context {R : Type}.
Variable key : R -> Z.
Variable affinity : R -> R.
Variable violation : list R -> R -> option sqlerror.

Lemma fold_max_ge (l : list Z) (z : Z) :
  z <= fold_right Z.max z l /\ Forall (fun x => x <= fold_right Z.max z l) l.
Proof.
  induction l as [|a l [IHz IHl]]; simpl.
  - split; [lia | constructor].
  - split; [lia |].
    constructor; [lia |].
    eapply Forall_impl; [| exact IHl].
    simpl; intros; lia.
Qed.

(** The id AUTOINCREMENT hands out is above every id of the table. *)
Lemma next_rowid_above (t : table R) (id : Z) :
  next_rowid key t = Some id ->
  Forall (fun r => key r < id) (rows t) /\ seq t < id /\ id <= max_rowid.
Proof.
  unfold next_rowid, top_rowid.
  destruct (fold_max_ge (map key (rows t)) (seq t)) as [Hs Hr].
  destruct (Z.ltb_spec (fold_right Z.max (seq t) (map key (rows t))) max_rowid);
    [| discriminate].
  intros [= <-].
  repeat split; try lia.
  rewrite Forall_map in Hr.
  eapply Forall_impl; [| exact Hr].
  simpl; intros; lia.
Qed.

(** A one-row INSERT succeeds exactly when the storage layer is up, the
    table exists, an id is left and no constraint objects; it then
    appends the row. *)
Lemma insert_one_inr (name : string) (f : fault) (mk : Z -> R)
    (ot : option (table R)) (t' : table R) :
  insert_into key affinity violation name f [mk] ot = inr t' ->
  f = None /\
  exists t id,
    ot = Some t /\ next_rowid key t = Some id /\
    violation (rows t) (affinity (mk id)) = None /\
    t' = {| rows := rows t ++ [affinity (mk id)]; seq := id |}.
Proof.
  unfold insert_into.
  destruct f as [m|]; [discriminate |].
  destruct ot as [t|]; [| discriminate].
  simpl. unfold insert_row.
  destruct (next_rowid key t) as [id|] eqn:Hid; [| discriminate].
  destruct (violation (rows t) (affinity (mk id))) as [e|] eqn:Hv;
    [discriminate |].
  intros [= <-].
  split; [reflexivity |].
  exists t, id. repeat split; assumption.
Qed.

Lemma insert_one_accepted (name : string) (mk : Z -> R) (t : table R)
    (id : Z) :
  next_rowid key t = Some id ->
  violation (rows t) (affinity (mk id)) = None ->
  insert_into key affinity violation name None [mk] (Some t)
  = inr {| rows := rows t ++ [affinity (mk id)]; seq := id |}.
Proof.
  intros Hid Hv. simpl. unfold insert_row. rewrite Hid, Hv. reflexivity.
Qed.
End InsertFacts.

Lemma sql_eq_refl (v : sqlval) : v <> SNull -> sql_eq v v = true.
Proof.
  destruct v as [|z|s]; simpl; intros H.
  - congruence.
  - apply Z.eqb_refl.
  - apply String.eqb_refl.
Qed.

Lemma text_affinity_null (v : sqlval) :
  is_null (text_affinity v) = is_null v.
Proof. destruct v; reflexivity. Qed.

(** *** Facts about the avatar derivation *)

(** On two strings the derivation does not throw and yields the two
    leading units; an empty name gives nothing. *)
Lemma initials_of_strings (b : body) (fn ln : Js.jsstring) :
  first_name b = Js.Str fn -> last_name b = Js.Str ln ->
  initials b = Js.Normal (Js.Str (firstn 1 fn ++ firstn 1 ln)%list).
Proof.
  intros Hf Hl. unfold initials. rewrite Hf, Hl.
  destruct fn as [|c fn], ln as [|d ln]; reflexivity.
Qed.

(** Whatever the fields hold, the derivation yields a string when it does
    not throw. *)
Lemma initials_is_string (b : body) (v : Js.value) :
  initials b = Js.Normal v -> exists s, v = Js.Str s.
Proof.
  unfold initials.
  destruct (first_name b) as [| |x|x|[|c x]];
    destruct (last_name b) as [| |y|y|[|d y]];
    simpl; intros [= <-]; eexists; reflexivity.
Qed.

(** The derivation throws as soon as a name is [undefined] or [null]. *)
Lemma initials_throws (b : body) :
  Js.nullish (first_name b) = true \/ Js.nullish (last_name b) = true ->
  exists e, initials b = Js.Throw e
            /\ (e = Js.type_error_undefined \/ e = Js.type_error_null).
Proof.
  unfold initials.
  destruct (first_name b) as [| |x|x|[|c x]];
    destruct (last_name b) as [| |y|y|[|d y]];
    simpl; intros [H|H]; try discriminate H;
    eexists; split; try reflexivity; auto.
Qed.

Lemma initials_completes (b : body) :
  Js.nullish (first_name b) = false -> Js.nullish (last_name b) = false ->
  exists s, initials b = Js.Normal (Js.Str s).
Proof.
  unfold initials.
  destruct (first_name b) as [| |x|x|[|c x]];
    destruct (last_name b) as [| |y|y|[|d y]];
    simpl; intros H1 H2; try discriminate;
    eexists; reflexivity.
Qed.

(** *** Facts about the UTF-8 text of a string *)

Lemma string_of_list_ascii_append (x y : list ascii) :
  string_of_list_ascii (x ++ y)%list
  = (string_of_list_ascii x ++ string_of_list_ascii y)%string.
Proof. induction x as [|c x IH]; simpl; [| rewrite IH]; reflexivity. Qed.

Lemma append_empty_r (s : string) : (s ++ EmptyString)%string = s.
Proof. induction s as [|c s IH]; simpl; [| rewrite IH]; reflexivity. Qed.

(** A string that starts in the Basic Multilingual Plane starts with a
    character of one unit. *)
Lemma first_character_bmp (s : Js.jsstring) :
  Js.starts_in_bmp s = true -> Js.first_character s = firstn 1 s.
Proof.
  destruct s as [|u [|v s]]; simpl; try reflexivity.
  intros H. apply negb_true_iff, orb_false_iff in H. destruct H as [-> _].
  reflexivity.
Qed.

(** The text of two leading units that are no surrogates is the text of
    the one followed by the text of the other. *)
Lemma utf8_leading_units (fn ln : Js.jsstring) :
  Js.starts_in_bmp fn = true -> Js.starts_in_bmp ln = true ->
  Js.utf8 (firstn 1 fn ++ firstn 1 ln)%list
  = (Js.utf8 (firstn 1 fn) ++ Js.utf8 (firstn 1 ln))%string.
Proof.
  destruct fn as [|u fn]; [reflexivity |].
  destruct ln as [|v ln]; simpl.
  - intros _ _. change (Js.utf8 []) with EmptyString.
    rewrite append_empty_r. reflexivity.
  - intros Hu Hv.
    apply negb_true_iff, orb_false_iff in Hu. destruct Hu as [Hu1 Hu2].
    apply negb_true_iff, orb_false_iff in Hv. destruct Hv as [Hv1 Hv2].
    unfold Js.utf8. simpl. rewrite Hu1, Hu2, Hv1, Hv2. simpl.
    rewrite !app_nil_r. apply string_of_list_ascii_append.
Qed.

(** An ASCII literal is bound as itself. *)
Lemma utf8_ascii_unit (c : ascii) :
  (N_of_ascii c < 128)%N ->
  Js.high_surrogate (zero, c) = false
  /\ Js.low_surrogate (zero, c) = false
  /\ Js.utf8_bytes (Js.code (zero, c)) = [c].
Proof.
  destruct c as [b0 b1 b2 b3 b4 b5 b6 b7].
  destruct b7.
  - intros H. exfalso. revert H.
    destruct b0, b1, b2, b3, b4, b5, b6; vm_compute; discriminate.
  - intros _.
    destruct b0, b1, b2, b3, b4, b5, b6; vm_compute; repeat split.
Qed.

Lemma utf8_lit (s : string) :
  Js.ascii_only s -> Js.utf8 (Js.lit s) = s.
Proof.
  unfold Js.ascii_only, Js.utf8, Js.lit.
  induction s as [|c s IH]; [reflexivity |].
  intros H. simpl in H. inversion H as [|? ? Hc Hs]; subst.
  destruct (utf8_ascii_unit c Hc) as (Hh & Hl & Hb).
  cbn [list_ascii_of_string map Js.scalars]. rewrite Hh, Hl.
  cbn [flat_map]. rewrite Hb.
  change (String c (string_of_list_ascii
            (flat_map Js.utf8_bytes
               (Js.scalars (map (fun c => (zero, c))
                                (list_ascii_of_string s)))))
          = String c s).
  f_equal. exact (IH Hs).
Qed.

Lemma ascii_only_uint (u : Decimal.uint) :
  Js.ascii_only (NilEmpty.string_of_uint u).
Proof.
  unfold Js.ascii_only.
  induction u; simpl; constructor; try assumption; vm_compute; reflexivity.
Qed.

Lemma ascii_only_decimal (z : Z) : Js.ascii_only (decimal z).
Proof.
  unfold decimal, NilZero.string_of_int, NilZero.string_of_uint.
  destruct (Z.to_int z) as [u|u].
  - destruct u; try apply ascii_only_uint.
    repeat constructor.
  - assert (H : Js.ascii_only (match u with
                               | Decimal.Nil => "0"
                               | _ => NilEmpty.string_of_uint u
                               end)).
    { destruct u; try apply ascii_only_uint. repeat constructor. }
    constructor; [vm_compute; reflexivity | exact H].
Qed.

(** A number of the 32-bit range and the string of its decimal digits are
    bound to the same text. *)
Lemma utf8_decimal (z : Z) : Js.utf8 (Js.lit (decimal z)) = decimal z.
Proof. apply utf8_lit, ascii_only_decimal. Qed.

(** *** Facts about POST /api/students *)

(** The handler answers "saved" only after the INSERT went through, and
    the store then holds exactly one more student, the row of the
    parameters with the id of the answer. *)
Lemma post_api_students_saved (f : fault) (random : Q) (b : body)
    (db db' : store) (r : response) :
  post_api_students f random b db = (Sent r, db') ->
  status r = 200 ->
  exists ini t id,
    initials b = Js.Normal ini /\ students db = Some t /\
    next_rowid s_id t = Some id /\
    r = res_json (saved "Student" id) /\
    db' = with_students
            (Some {| rows := rows t ++
                       [student_affinity
                          (student_params b ini (randomColor random) id)];
                     seq := id |}) db.
Proof.
  unfold post_api_students.
  destruct (initials b) as [ini|e] eqn:Hini; [| discriminate].
  destruct (insert_students f [student_params b ini (randomColor random)]
              (students db)) as [err|t'] eqn:Hins.
  - intros [= <- <-]. simpl. discriminate.
  - intros [= <- <-] _.
    apply insert_one_inr in Hins.
    destruct Hins as [_ (t & id & Ht & Hid & _ & ->)].
    exists ini, t, id. simpl. repeat split; try assumption.
Qed.

(** Once the derivation completes the handler answers: it never throws
    past it. *)
Lemma post_api_students_answers (f : fault) (random : Q) (b : body)
    (db : store) (ini : Js.value) :
  initials b = Js.Normal ini ->
  exists r db', post_api_students f random b db = (Sent r, db').
Proof.
  intros Hini. unfold post_api_students. rewrite Hini.
  destruct (insert_students f _ (students db)); eexists; eexists; reflexivity.
Qed.

(** C1: when [first_name] and [last_name] are strings, the derivation of
    the initials does not throw (an empty name included) and the handler
    answers.  When moreover each name is empty or starts with a
    character of the Basic Multilingual Plane, every student the handler
    stores carries as [avatar_initials] the first character of
    [first_name] followed by the first character of [last_name], an
    empty name contributing nothing. *)
Theorem student_avatar_initials (f : fault) (random : Q) (b : body)
    (db : store) (fn ln : Js.jsstring) :
  first_name b = Js.Str fn ->
  last_name b = Js.Str ln ->
  (exists ini, initials b = Js.Normal (Js.Str ini))
  /\ (exists r db', post_api_students f random b db = (Sent r, db'))
  /\ (Js.starts_in_bmp fn = true -> Js.starts_in_bmp ln = true ->
      initials b
      = Js.Normal (Js.Str (Js.first_character fn
                           ++ Js.first_character ln)%list)
      /\ forall r db',
           post_api_students f random b db = (Sent r, db') ->
           status r = 200 ->
           exists t row,
             students db = Some t
             /\ rows_of (students db') = (rows t ++ [row])%list
             /\ r = res_json (saved "Student" (s_id row))
             /\ s_avatar_initials row
                = SText (Js.utf8 (Js.first_character fn)
                         ++ Js.utf8 (Js.first_character ln))).
Proof.
  intros Hf Hl.
  pose proof (initials_of_strings b fn ln Hf Hl) as Hini.
  split; [eexists; exact Hini |].
  split; [eapply post_api_students_answers; exact Hini |].
  intros Hbf Hbl.
  rewrite !first_character_bmp by assumption.
  split; [exact Hini |].
  intros r db' Hpost Hok.
  destruct (post_api_students_saved _ _ _ _ _ _ Hpost Hok)
    as (ini & t & id & Hini' & Ht & _ & Hr & Hdb).
  rewrite Hini in Hini'. injection Hini' as <-.
  exists t,
    (student_affinity
       (student_params b (Js.Str (firstn 1 fn ++ firstn 1 ln)%list)
                       (randomColor random) id)).
  subst db'.
  split; [exact Ht |]. split; [reflexivity |]. split; [exact Hr |].
  change (SText (Js.utf8 (firstn 1 fn ++ firstn 1 ln)%list)
          = SText (Js.utf8 (firstn 1 fn) ++ Js.utf8 (firstn 1 ln))).
  f_equal. apply utf8_leading_units; assumption.
Qed.

(** C10: a body that lacks [first_name] or lacks [last_name] makes the
    handler throw a TypeError while it derives the initials: nothing is
    inserted and the handler sends neither a success nor an error
    document. *)
Theorem missing_name_throws (f : fault) (random : Q) (b : body) (db : store) :
  first_name b = Js.Undefined \/ last_name b = Js.Undefined ->
  exists e,
    post_api_students f random b db = (Threw e, db)
    /\ (e = Js.type_error_undefined \/ e = Js.type_error_null).
Proof.
  intros H.
  destruct (initials_throws b) as (e & He & Hty).
  { destruct H as [H|H]; rewrite H; auto. }
  exists e. split; [| exact Hty].
  unfold post_api_students. rewrite He. reflexivity.
Qed.

(** *** The palette *)

Lemma floor_mul_range (random : Q) (n : Z) :
  (0 <= random)%Q -> (random < 1)%Q -> 0 < n ->
  0 <= Js.floor_mul random n < n.
Proof.
  intros H0 H1 Hn. unfold Js.floor_mul.
  assert (Hpos : (inject_Z 0 < inject_Z n)%Q) by (rewrite <- Zlt_Qlt; exact Hn).
  split.
  - change 0 with (Qfloor 0). apply Qfloor_resp_le.
    apply Qmult_le_0_compat; [exact H0 | apply Qlt_le_weak; exact Hpos].
  - rewrite Zlt_Qlt.
    apply Qle_lt_trans with (random * inject_Z n)%Q; [apply Qfloor_le |].
    setoid_replace (inject_Z n) with (1 * inject_Z n)%Q at 2 by ring.
    apply Qmult_lt_compat_r; assumption.
Qed.

Lemma randomColor_in_palette (random : Q) :
  (0 <= random)%Q -> (random < 1)%Q ->
  exists c, In c colors /\ randomColor random = Js.Str c.
Proof.
  intros H0 H1. unfold randomColor.
  assert (Hn : 0 < Z.of_nat (List.length colors)) by (simpl; lia).
  pose proof (floor_mul_range random _ H0 H1 Hn) as Hr.
  set (i := Js.floor_mul random (Z.of_nat (List.length colors))) in *.
  change (Z.of_nat (List.length colors)) with 4 in Hr.
  assert (Hi : i = 0 \/ i = 1 \/ i = 2 \/ i = 3) by lia.
  destruct Hi as [-> | [-> | [-> | ->]]]; simpl;
    eexists; (split; [| reflexivity]); simpl; auto.
Qed.

(** C8: whatever number in [0, 1) [Math.random()] returns, the student the
    handler stores carries as [avatar_color] one of blue, amber, rose and
    cyan; and each of the four is drawn for some such number. *)
Theorem student_avatar_color (f : fault) (random : Q) (b : body)
    (db db' : store) (r : response) :
  (0 <= random)%Q -> (random < 1)%Q ->
  post_api_students f random b db = (Sent r, db') ->
  status r = 200 ->
  (exists t row,
     students db = Some t
     /\ rows_of (students db') = (rows t ++ [row])%list
     /\ r = res_json (saved "Student" (s_id row))
     /\ In (s_avatar_color row)
           [SText "blue"; SText "amber"; SText "rose"; SText "cyan"])
  /\ forall c, In c colors ->
       exists q, (0 <= q)%Q /\ (q < 1)%Q /\ randomColor q = Js.Str c.
Proof.
  intros H0 H1 Hpost Hok. split.
  - destruct (post_api_students_saved _ _ _ _ _ _ Hpost Hok)
      as (ini & t & id & _ & Ht & _ & Hr & Hdb).
    destruct (randomColor_in_palette random H0 H1) as (c & Hc & Hcol).
    exists t. eexists. subst db'. simpl.
    repeat split; [exact Ht | exact Hr |].
    rewrite Hcol. simpl.
    simpl in Hc. intuition (subst; auto).
  - intros c Hc. simpl in Hc.
    destruct Hc as [<- | [<- | [<- | [<- | []]]]].
    + exists 0%Q. repeat split; try reflexivity; discriminate.
    + exists (1 # 4)%Q. repeat split; try reflexivity; discriminate.
    + exists (2 # 4)%Q. repeat split; try reflexivity; discriminate.
    + exists (3 # 4)%Q. repeat split; try reflexivity; discriminate.
Qed.

(** *** Uniqueness of [student_id] *)

Lemma student_id_taken_In (rs : list student_row) (r0 : student_row) :
  In r0 rs -> s_student_id r0 <> SNull ->
  student_id_taken rs (s_student_id r0) = true.
Proof.
  intros Hin Hnn. unfold student_id_taken.
  apply existsb_exists. exists r0. split; [exact Hin |].
  apply sql_eq_refl; exact Hnn.
Qed.

(** A row whose [student_id] is already stored never passes the
    constraints. *)
Lemma duplicate_violates (rs : list student_row) (r0 r : student_row) :
  In r0 rs -> s_student_id r = s_student_id r0 ->
  exists e, student_violation rs r = Some e.
Proof.
  intros Hin Heq. unfold student_violation, first_violation. simpl.
  destruct (is_null (s_student_id r)) eqn:Hnull; [eexists; reflexivity |].
  destruct (is_null (s_first_name r)); [eexists; reflexivity |].
  destruct (is_null (s_last_name r)); [eexists; reflexivity |].
  destruct (negb (status_ok (s_status r))); [eexists; reflexivity |].
  rewrite Heq, student_id_taken_In; [eexists; reflexivity | exact Hin |].
  rewrite <- Heq. intros E. rewrite E in Hnull. discriminate.
Qed.

(** C2: when the store already holds a student with the [student_id] of
    the request and the request carries its two names (neither
    undefined nor null, so that the INSERT is reached), the creation is
    answered 500 with an [error] document and the store is left exactly
    as it was, the first student's row included; with the storage layer
    up, an id left and the three NOT NULL parameters bound, the error is
    the violation of the UNIQUE constraint on [students.student_id]. *)
Theorem duplicate_student_id_rejected (f : fault) (random : Q) (b : body)
    (db : store) (t : table student_row) (r0 : student_row) :
  students db = Some t ->
  In r0 (rows t) ->
  s_student_id r0 = text_affinity (bind_param (student_id b)) ->
  Js.nullish (first_name b) = false ->
  Js.nullish (last_name b) = false ->
  exists err,
    post_api_students f random b db
    = (Sent (res_status_json 500 (error_body (message err))), db)
    /\ In r0 (rows_of (students db))
    /\ (f = None -> next_rowid s_id t <> None -> binds_not_null b = true ->
        err = UniqueFailed "students.student_id").
Proof.
  intros Ht Hin Hsid Hfn Hln.
  destruct (initials_completes b Hfn Hln) as (ini & Hini).
  unfold post_api_students. rewrite Hini, Ht.
  assert (Hq : In r0 (rows_of (Some t))) by exact Hin.
  destruct f as [m|].
  - exists (Fault m). simpl. repeat split; [exact Hin | discriminate].
  - simpl. unfold insert_row.
    destruct (next_rowid s_id t) as [id|] eqn:Hid.
    + set (r := student_affinity
                  (student_params b (Js.Str ini) (randomColor random) id)).
      destruct (duplicate_violates (rows t) r0 r Hin) as (e & He).
      { subst r. simpl. symmetry. exact Hsid. }
      rewrite He. exists e. repeat split; [exact Hin |].
      intros _ _ Hb.
      unfold binds_not_null in Hb.
      apply andb_prop in Hb. destruct Hb as [Hb H3].
      apply andb_prop in Hb. destruct Hb as [H1 H2].
      apply negb_true_iff in H1, H2, H3.
      revert He.
      unfold student_violation, first_violation. subst r. simpl.
      rewrite !text_affinity_null, H1, H2, H3. simpl.
      rewrite <- Hsid, student_id_taken_In; [congruence | exact Hin |].
      rewrite Hsid. intros E.
      rewrite <- text_affinity_null, E in H1. discriminate.
    + exists Full. simpl. repeat split; [exact Hin |].
      intros _ Hno. congruence.
Qed.

(** *** The dashboard counters *)

Lemma filter_all_rows {R : Type} (l : list R) : filter all_rows l = l.
Proof.
  induction l as [|x l IH]; simpl; [reflexivity | rewrite IH; reflexivity].
Qed.

Lemma select_count_inr {R : Type} (name : string) (p : R -> bool) (f : fault)
    (t : option (table R)) (n : Z) :
  select_count name p f t = inr n ->
  f = None /\ exists t', t = Some t'
                        /\ n = Z.of_nat (List.length (filter p (rows t'))).
Proof.
  unfold select_count.
  destruct f as [m|]; [discriminate |].
  destruct t as [t'|]; [| discriminate].
  intros [= <-]. split; [reflexivity |]. exists t'. split; reflexivity.
Qed.

Lemma first_rejected_In (ps : list (result Z)) (e : sqlerror) :
  first_rejected ps = Some e -> In (inl e) ps.
Proof.
  unfold first_rejected.
  destruct (find rejected ps) as [[e'|n]|] eqn:Hfind; try discriminate.
  intros [= <-]. apply find_some in Hfind. tauto.
Qed.

Lemma first_rejected_none (ps : list (result Z)) :
  first_rejected ps = None -> forall e, ~ In (inl e) ps.
Proof.
  unfold first_rejected.
  destruct (find rejected ps) as [[e'|n]|] eqn:Hfind; try discriminate.
  - apply find_some in Hfind. destruct Hfind; discriminate.
  - intros _ e Hin.
    eapply find_none in Hfind; [| exact Hin]. discriminate.
Qed.

(** [Promise.all] is rejected as soon as one promise is, with the reason
    of one of the rejected promises, whatever the order they settle in. *)
Lemma promise_all_rejected (order : list nat) (ps : list (result Z))
    (e0 : sqlerror) :
  In (inl e0) ps ->
  exists e, promise_all order ps = inl e /\ In (inl e) ps.
Proof.
  intros Hin. unfold promise_all.
  destruct (first_rejected (_ ++ ps)) as [e|] eqn:Hfirst.
  - exists e. split; [reflexivity |].
    apply first_rejected_In in Hfirst.
    apply in_app_or in Hfirst. destruct Hfirst as [H|H]; [| exact H].
    apply in_map_iff in H. destruct H as (i & Hnth & _).
    destruct (nth_in_or_default i ps (inr 0)) as [Hi|Hd].
    + rewrite Hnth in Hi. exact Hi.
    + rewrite Hd in Hnth. discriminate.
  - exfalso. eapply first_rejected_none; [exact Hfirst |].
    apply in_or_app. right. exact Hin.
Qed.

Lemma promise_all_fulfilled (order : list nat) (ps : list (result Z))
    (vs : list json) :
  promise_all order ps = inr vs ->
  vs = map fulfilled ps /\ forall e, ~ In (inl e) ps.
Proof.
  unfold promise_all.
  destruct (first_rejected (_ ++ ps)) as [e|] eqn:Hfirst; [discriminate |].
  intros [= <-]. split; [reflexivity |].
  intros e Hin. eapply first_rejected_none; [exact Hfirst |].
  apply in_or_app. right. exact Hin.
Qed.

Lemma isActive_iff (c : course_row) :
  isActive c = true <-> c_isActive c = SInt 1.
Proof.
  unfold isActive, sql_eq.
  destruct (c_isActive c) as [|z|t]; split; intros H; try discriminate H.
  - apply Z.eqb_eq in H. rewrite H. reflexivity.
  - injection H as ->. reflexivity.
Qed.

Lemma filter_split {A : Type} (p : A -> bool) (l : list A) :
  Permutation l (filter p l ++ filter (fun x => negb (p x)) l).
Proof.
  induction l as [|x l IH]; simpl; [constructor |].
  destruct (p x); simpl.
  - apply perm_skip. exact IH.
  - apply Permutation_cons_app. exact IH.
Qed.

(** C4: a successful GET /api/stats carries in [total_students] the number
    of rows of [students], in [faculty_staff] the number of rows of
    [faculty] and in [fee_collection] the literal "$2.4M".  The rows of
    [courses] fall into the active ones, whose [isActive] holds 1, and
    the others (0, NULL or anything else); [active_courses] is the number
    of the active ones, so no other course is counted. *)
Theorem stats_counters (f1 f2 f3 : fault) (order : list nat) (db : store)
    (r : response) :
  get_api_stats f1 f2 f3 order db = Sent r ->
  status r = 200 ->
  exists ss cs fs active inactive,
    students db = Some ss /\ courses db = Some cs /\ faculty db = Some fs
    /\ Permutation (rows cs) (active ++ inactive)
    /\ Forall (fun c => c_isActive c = SInt 1) active
    /\ Forall (fun c => c_isActive c <> SInt 1) inactive
    /\ payload r =
       JObject
         [("total_students", JNumber (Z.of_nat (List.length (rows ss))));
          ("active_courses", JNumber (Z.of_nat (List.length active)));
          ("faculty_staff", JNumber (Z.of_nat (List.length (rows fs))));
          ("fee_collection", JString "$2.4M")].
Proof.
  unfold get_api_stats.
  destruct (promise_all order (stats_queries f1 f2 f3 db)) as [e|vs] eqn:Hall.
  - intros [= <-]. simpl. discriminate.
  - intros [= <-] _.
    apply promise_all_fulfilled in Hall. destruct Hall as [-> Hnone].
    unfold stats_queries in *.
    destruct (select_count "students" all_rows f1 (students db))
      as [e1|n1] eqn:H1; [exfalso; apply (Hnone e1); simpl; auto |].
    destruct (select_count "courses" isActive f2 (courses db))
      as [e2|n2] eqn:H2; [exfalso; apply (Hnone e2); simpl; auto |].
    destruct (select_count "faculty" all_rows f3 (faculty db))
      as [e3|n3] eqn:H3; [exfalso; apply (Hnone e3); simpl; auto |].
    apply select_count_inr in H1, H2, H3.
    destruct H1 as [_ (ss & Hss & ->)].
    destruct H2 as [_ (cs & Hcs & ->)].
    destruct H3 as [_ (fs & Hfs & ->)].
    exists ss, cs, fs, (filter isActive (rows cs)),
      (filter (fun c => negb (isActive c)) (rows cs)).
    rewrite !filter_all_rows.
    split; [exact Hss |]. split; [exact Hcs |]. split; [exact Hfs |].
    split; [apply filter_split |].
    split; [| split; [| reflexivity]].
    + apply Forall_forall. intros c Hc. apply filter_In in Hc.
      apply isActive_iff, Hc.
    + apply Forall_forall. intros c Hc E. apply filter_In in Hc.
      apply isActive_iff in E. destruct Hc as [_ Hc]. rewrite E in Hc.
      discriminate Hc.
Qed.

(** C5: when one of the three counts fails, GET /api/stats answers 500
    with an [error] document that carries the message of a failed count
    and nothing else, whatever the order in which the three settle; a
    document with counters is sent only when all three succeeded. *)
Theorem stats_all_or_nothing (f1 f2 f3 : fault) (order : list nat)
    (db : store) (e0 : sqlerror) :
  In (inl e0) (stats_queries f1 f2 f3 db) ->
  (exists e,
     get_api_stats f1 f2 f3 order db
     = Sent (res_status_json 500 (error_body (message e)))
     /\ In (inl e) (stats_queries f1 f2 f3 db))
  /\ forall r, get_api_stats f1 f2 f3 order db = Sent r -> status r <> 200.
Proof.
  intros Hin.
  destruct (promise_all_rejected order _ e0 Hin) as (e & Hall & He).
  unfold get_api_stats. rewrite Hall. split.
  - exists e. split; [reflexivity | exact He].
  - intros r [= <-]. simpl. discriminate.
Qed.

(** *** The recent-enrollments view *)

Lemma insert_desc_perm (x : joined) (l : list joined) :
  Permutation (insert_desc x l) (x :: l).
Proof.
  induction l as [|y l IH]; simpl; [reflexivity |].
  destruct (Z.leb (s_id (fst y)) (s_id (fst x))); [reflexivity |].
  rewrite IH. apply perm_swap.
Qed.

Lemma order_by_id_desc_perm (l : list joined) :
  Permutation (order_by_id_desc l) l.
Proof.
  induction l as [|x l IH]; simpl; [reflexivity |].
  rewrite insert_desc_perm. constructor. exact IH.
Qed.

Lemma insert_desc_sorted (x : joined) (l : list joined) :
  StronglySorted desc l -> StronglySorted desc (insert_desc x l).
Proof.
  induction 1 as [|y l Hs IH Hy]; simpl.
  - constructor; constructor.
  - destruct (Z.leb_spec (s_id (fst y)) (s_id (fst x))) as [Hle|Hgt].
    + constructor; [constructor; assumption |].
      constructor; [exact Hle |].
      eapply Forall_impl; [| exact Hy].
      unfold desc. intros z Hz. lia.
    + constructor; [exact IH |].
      eapply Permutation_Forall; [symmetry; apply insert_desc_perm |].
      constructor; [unfold desc; lia | exact Hy].
Qed.

Lemma order_by_id_desc_sorted (l : list joined) :
  StronglySorted desc (order_by_id_desc l).
Proof.
  induction l as [|x l IH]; simpl; [constructor |].
  apply insert_desc_sorted. exact IH.
Qed.

Lemma sorted_app_inv (l1 l2 : list joined) :
  StronglySorted desc (l1 ++ l2) ->
  StronglySorted desc l1
  /\ forall a b, In a l1 -> In b l2 -> desc a b.
Proof.
  induction l1 as [|x l1 IH]; simpl; intros Hs.
  - split; [constructor | intros a b []].
  - inversion Hs as [|? ? Hs' Hx]; subst.
    destruct (IH Hs') as [IH1 IH2].
    split.
    + constructor; [exact IH1 |].
      apply Forall_app in Hx. tauto.
    + intros a b [<-|Ha] Hb.
      * rewrite Forall_forall in Hx. apply Hx. apply in_or_app. auto.
      * apply IH2; assumption.
Qed.

(** The join loses no student: each has at least one row. *)
Lemma left_join_total (ss : list student_row) (ds : list department_row)
    (s : student_row) :
  In s ss -> exists n, In (s, n) (left_join ss ds).
Proof.
  intros Hin. unfold left_join.
  destruct (filter (fun d => sql_eq (s_department_id s) (SInt (d_id d))) ds)
    as [|d ms] eqn:Hm.
  - exists SNull. apply in_flat_map. exists s. split; [exact Hin |].
    rewrite Hm. left. reflexivity.
  - exists (d_name d). apply in_flat_map. exists s. split; [exact Hin |].
    rewrite Hm. left. reflexivity.
Qed.

(** Every row of the join is the row of a student of the table. *)
Lemma left_join_from (ss : list student_row) (ds : list department_row)
    (j : joined) :
  In j (left_join ss ds) -> In (fst j) ss.
Proof.
  unfold left_join. rewrite in_flat_map. intros (s & Hs & Hj).
  destruct (filter _ ds) as [|d ms].
  - destruct Hj as [<-|[]]. exact Hs.
  - change (In j (map (fun d0 => (s, d_name d0)) (d :: ms))) in Hj.
    apply in_map_iff in Hj. destruct Hj as (d0 & <- & _). exact Hs.
Qed.

Lemma null_never_matches (ds : list department_row) :
  filter (fun d => sql_eq SNull (SInt (d_id d))) ds = [].
Proof. induction ds as [|d ds IH]; simpl; [reflexivity | exact IH]. Qed.

(** A student without department has exactly the row with a NULL
    [department_name]. *)
Lemma left_join_null (ss : list student_row) (ds : list department_row)
    (s : student_row) (n : sqlval) :
  s_department_id s = SNull ->
  In (s, n) (left_join ss ds) <-> In s ss /\ n = SNull.
Proof.
  intros Hnull. unfold left_join. rewrite in_flat_map. split.
  - intros (s' & Hs' & Hj).
    destruct (filter (fun d => sql_eq (s_department_id s') (SInt (d_id d))) ds)
      as [|d ms] eqn:Hm.
    + destruct Hj as [[= -> ->]|[]]. split; [exact Hs' | reflexivity].
    + change (In (s, n) (map (fun d0 => (s', d_name d0)) (d :: ms))) in Hj.
      apply in_map_iff in Hj. destruct Hj as (d0 & [= -> _] & _).
      rewrite Hnull, null_never_matches in Hm. discriminate.
  - intros [Hs ->]. exists s. split; [exact Hs |].
    rewrite Hnull, null_never_matches. left. reflexivity.
Qed.

Lemma firstn_incl {A : Type} (n : nat) (l : list A) (x : A) :
  In x (firstn n l) -> In x l.
Proof.
  intros H. rewrite <- (firstn_skipn n l). apply in_or_app. left. exact H.
Qed.

Lemma firstn_skipn_sorted (n : nat) (l : list joined) :
  StronglySorted desc l ->
  StronglySorted desc (firstn n l)
  /\ forall a b, In a (firstn n l) -> In b (skipn n l) -> desc a b.
Proof.
  intros Hs. apply sorted_app_inv. rewrite firstn_skipn. exact Hs.
Qed.

Lemma select_recent_inr (f : fault) (db : store) (rs : list joined) :
  select_recent f db = inr rs ->
  f = None /\
  exists ss ds,
    students db = Some ss /\ departments db = Some ds
    /\ rs = firstn limit (order_by_id_desc (left_join (rows ss) (rows ds))).
Proof.
  unfold select_recent.
  destruct f as [m|]; [discriminate |].
  destruct (students db) as [ss|]; [| discriminate].
  destruct (departments db) as [ds|]; [| discriminate].
  intros [= <-]. split; [reflexivity |].
  exists ss, ds. repeat split.
Qed.

(** In the store a creation leaves, the row created is the first of the
    view, and its id is above the id of every earlier student. *)
Lemma created_student_first (f0 : fault) (random : Q) (b : body)
    (db0 db : store) (r0 : response) (f : fault) (rs : list joined) :
  post_api_students f0 random b db0 = (Sent r0, db) ->
  status r0 = 200 ->
  select_recent f db = inr rs ->
  exists j rest,
    rs = j :: rest
    /\ r0 = res_json (saved "Student" (s_id (fst j)))
    /\ forall s, In s (rows_of (students db0)) -> s_id s < s_id (fst j).
Proof.
  intros Hpost Hok Hsel.
  destruct (post_api_students_saved _ _ _ _ _ _ Hpost Hok)
    as (ini & t & id & _ & Ht & Hid & Hr & Hdb).
  apply next_rowid_above in Hid. destruct Hid as [Hold _].
  rewrite Forall_forall in Hold.
  apply select_recent_inr in Hsel.
  destruct Hsel as [_ (ss & ds & Hss & _ & ->)].
  subst db. simpl in Hss. injection Hss as <-. simpl rows.
  set (new := student_affinity (student_params b ini (randomColor random) id)).
  set (L := left_join (rows t ++ [new]) (rows ds)).
  pose proof (order_by_id_desc_perm L) as Hperm.
  pose proof (order_by_id_desc_sorted L) as Hsorted.
  destruct (left_join_total (rows t ++ [new]) (rows ds) new) as (n & Hn).
  { apply in_or_app. right. left. reflexivity. }
  fold L in Hn.
  apply (Permutation_in _ (Permutation_sym Hperm)) in Hn.
  destruct (order_by_id_desc L) as [|j rest] eqn:HS; [destruct Hn |].
  exists j, (firstn 4 rest).
  assert (Hj : s_id (fst j) = id).
  { assert (Hge : id <= s_id (fst j)).
    { inversion Hsorted as [|? ? _ Hall]; subst.
      destruct Hn as [->|Hn]; [simpl; lia |].
      rewrite Forall_forall in Hall. apply (Hall _ Hn). }
    assert (Hfrom : In (fst j) (rows t ++ [new])).
    { apply left_join_from with (ds := rows ds). fold L.
      apply (Permutation_in _ Hperm). left. reflexivity. }
    apply in_app_or in Hfrom. destruct Hfrom as [Hin|[<-|[]]].
    - specialize (Hold _ Hin). simpl in Hold. lia.
    - reflexivity. }
  repeat split.
  - rewrite Hj. exact Hr.
  - intros s Hs. rewrite Ht in Hs. rewrite Hj. apply (Hold _ Hs).
Qed.

(** C6: a successful GET /api/enrollments/recent carries at most five
    rows, in descending order of student id; they are rows of students of
    the table, no student left out has a larger id than one shown, and in
    the store a creation leaves the student just created comes first. *)
Theorem recent_enrollments_window (f : fault) (db : store) (r : response) :
  get_api_enrollments_recent f db = Sent r ->
  status r = 200 ->
  exists rs,
    select_recent f db = inr rs
    /\ payload r = JObject [("data", JArray (map row_json rs))]
    /\ (List.length rs <= 5)%nat
    /\ StronglySorted desc rs
    /\ (forall j, In j rs -> In (fst j) (rows_of (students db)))
    /\ (forall s, In s (rows_of (students db)) ->
          (exists n, In (s, n) rs)
          \/ forall j, In j rs -> s_id s <= s_id (fst j))
    /\ (forall f0 random b db0 r0,
          post_api_students f0 random b db0 = (Sent r0, db) ->
          status r0 = 200 ->
          exists j rest,
            rs = j :: rest
            /\ r0 = res_json (saved "Student" (s_id (fst j)))
            /\ forall s, In s (rows_of (students db0)) ->
                 s_id s < s_id (fst j)).
Proof.
  unfold get_api_enrollments_recent.
  destruct (select_recent f db) as [e|rs] eqn:Hsel.
  - intros [= <-]. simpl. discriminate.
  - intros [= <-] _. exists rs.
    split; [reflexivity |]. split; [reflexivity |].
    pose proof Hsel as Hsel'.
    apply select_recent_inr in Hsel'.
    destruct Hsel' as [_ (ss & ds & Hss & Hds & Hrs)].
    set (L := left_join (rows ss) (rows ds)) in *.
    pose proof (order_by_id_desc_perm L) as Hperm.
    destruct (firstn_skipn_sorted limit _ (order_by_id_desc_sorted L))
      as [Hsorted Hdom].
    rewrite <- Hrs in Hsorted, Hdom.
    split; [subst rs; apply firstn_le_length |].
    split; [exact Hsorted |].
    split; [| split].
    + intros j Hj. rewrite Hss. simpl.
      apply left_join_from with (ds := rows ds). fold L.
      apply (Permutation_in _ Hperm).
      subst rs. eapply firstn_incl. exact Hj.
    + intros s Hs. rewrite Hss in Hs. simpl in Hs.
      destruct (left_join_total (rows ss) (rows ds) s Hs) as (n & Hn).
      fold L in Hn.
      apply (Permutation_in _ (Permutation_sym Hperm)) in Hn.
      rewrite <- (firstn_skipn limit (order_by_id_desc L)) in Hn.
      rewrite <- Hrs in Hn.
      apply in_app_or in Hn. destruct Hn as [Hn|Hn].
      * left. exists n. exact Hn.
      * right. intros j Hj. apply (Hdom j (s, n) Hj Hn).
    + intros f0 random b db0 r0 Hpost Hok.
      eapply created_student_first; eassumption.
Qed.

(** *** Students without department *)

Lemma filter_length_perm {A : Type} (p : A -> bool) (l l' : list A) :
  Permutation l l' ->
  List.length (filter p l) = List.length (filter p l').
Proof.
  induction 1 as [|x l l' _ IH|x y l|l l' l'' _ IH1 _ IH2]; simpl.
  - reflexivity.
  - destruct (p x); simpl; congruence.
  - destruct (p x), (p y); reflexivity.
  - congruence.
Qed.

(** In a sorted result, a row that has at most [n] rows at or above its
    id is among the first [n]. *)
Lemma sorted_rank_firstn (x : joined) (l : list joined) :
  StronglySorted desc l ->
  forall n,
    In x l ->
    (List.length (filter (fun j => Z.leb (s_id (fst x)) (s_id (fst j))) l)
     <= n)%nat ->
    In x (firstn n l).
Proof.
  induction 1 as [|y l Hs IH Hy]; intros n Hin Hcount; [destruct Hin |].
  simpl in Hcount.
  assert (Hpass : Z.leb (s_id (fst x)) (s_id (fst y)) = true).
  { apply Z.leb_le. destruct Hin as [->|Hin]; [lia |].
    rewrite Forall_forall in Hy. apply (Hy _ Hin). }
  rewrite Hpass in Hcount. simpl in Hcount.
  destruct n as [|n]; [lia |].
  simpl. destruct Hin as [->|Hin]; [left; reflexivity |].
  right. apply IH; [exact Hin | lia].
Qed.

(** With department ids that are keys, at most one department matches. *)
Lemma at_most_one_match (v : sqlval) (ds : list department_row) :
  NoDup (map d_id ds) ->
  (List.length (filter (fun d => sql_eq v (SInt (d_id d))) ds) <= 1)%nat.
Proof.
  induction ds as [|d ds IH]; simpl; intros Hnd; [lia |].
  inversion Hnd as [|? ? Hnotin Hnd']; subst.
  specialize (IH Hnd').
  destruct (sql_eq v (SInt (d_id d))) eqn:Heq; [| lia].
  simpl.
  assert (Hnone : filter (fun d0 => sql_eq v (SInt (d_id d0))) ds = []).
  { destruct (filter _ ds) as [|d' ms] eqn:Hf; [reflexivity |].
    exfalso. apply Hnotin.
    assert (Hd' : In d' (filter (fun d0 => sql_eq v (SInt (d_id d0))) ds))
      by (rewrite Hf; left; reflexivity).
    apply filter_In in Hd'. destruct Hd' as [Hd' Hm].
    destruct v as [|z|t]; simpl in Heq, Hm; try discriminate.
    apply Z.eqb_eq in Heq, Hm.
    apply in_map_iff. exists d'. split; [lia | exact Hd']. }
  rewrite Hnone. simpl. lia.
Qed.

(** Then every student has exactly one row in the join. *)
Lemma left_join_one_each (ss : list student_row) (ds : list department_row) :
  NoDup (map d_id ds) ->
  map fst (left_join ss ds) = ss.
Proof.
  intros Hnd. unfold left_join.
  induction ss as [|s ss IH]; [reflexivity |].
  cbn [flat_map]. rewrite map_app, IH. change (s :: ss) with ([s] ++ ss)%list.
  f_equal.
  pose proof (at_most_one_match (s_department_id s) ds Hnd) as Hone.
  destruct (filter _ ds) as [|d [|d' ms]]; simpl in *;
    [reflexivity | reflexivity | lia].
Qed.

Lemma filter_length_map_fst (p : student_row -> bool) (l : list joined) :
  List.length (filter (fun j => p (fst j)) l)
  = List.length (filter p (map fst l)).
Proof.
  induction l as [|j l IH]; simpl; [reflexivity |].
  destruct (p (fst j)); simpl; congruence.
Qed.

Lemma row_json_department_name (s : student_row) (n : sqlval) :
  exists fields,
    row_json (s, n) = JObject (fields ++ [("department_name", to_json n)])%list.
Proof. eexists (_ :: _ :: _ :: _ :: _ :: _ :: _ :: _ :: _ :: [_]). reflexivity. Qed.

(** C7 (as the view is computed): a student whose [department_id] is
    NULL and who is among the five students with the highest ids has a
    row in the recent-enrollments view, and that row carries a null
    [department_name]; the join drops no student, only the limit does. *)
Theorem null_department_row_kept (db : store) (ss : table student_row)
    (ds : table department_row) (s : student_row) :
  students db = Some ss ->
  departments db = Some ds ->
  NoDup (map d_id (rows ds)) ->
  In s (rows ss) ->
  s_department_id s = SNull ->
  (rank s (rows ss) <= limit)%nat ->
  exists rs,
    get_api_enrollments_recent None db
    = Sent (res_json (JObject [("data", JArray (map row_json rs))]))
    /\ In (s, SNull) rs
    /\ (forall n, In (s, n) rs -> n = SNull)
    /\ exists fields,
         row_json (s, SNull)
         = JObject (fields ++ [("department_name", JNull)])%list.
Proof.
  intros Hss Hds Hnd Hin Hnull Hrank.
  unfold get_api_enrollments_recent, select_recent. rewrite Hss, Hds.
  set (L := left_join (rows ss) (rows ds)).
  exists (firstn limit (order_by_id_desc L)).
  split; [reflexivity |].
  pose proof (order_by_id_desc_perm L) as Hperm.
  assert (HinL : In (s, SNull) L).
  { apply left_join_null; [exact Hnull | split; [exact Hin | reflexivity]]. }
  split; [| split].
  - apply sorted_rank_firstn.
    + apply order_by_id_desc_sorted.
    + apply (Permutation_in _ (Permutation_sym Hperm)). exact HinL.
    + rewrite (filter_length_perm _ _ _ Hperm).
      pose proof (filter_length_map_fst
                    (fun s' => Z.leb (s_id s) (s_id s')) L) as Hmap.
      cbv beta in Hmap. cbn [fst].
      refine (eq_ind_r (fun k => (k <= limit)%nat) _ Hmap).
      unfold L. rewrite left_join_one_each by exact Hnd. exact Hrank.
  - intros n Hn. apply firstn_incl in Hn.
    apply (Permutation_in _ Hperm) in Hn.
    apply (left_join_null _ _ _ _ Hnull) in Hn. tauto.
  - apply (row_json_department_name s SNull).
Qed.

(** *** Start-up *)

Section InsertRowsFacts.
Context {R : Type}.
Variable key : R -> Z.
Variable affinity : R -> R.
Variable violation : list R -> R -> option sqlerror.

Lemma fold_max_bounded (l : list Z) (z : Z) :
  Forall (fun x => x <= z) l -> fold_right Z.max z l = z.
Proof.
  induction 1 as [|a l Ha _ IH]; simpl; [reflexivity |].
  rewrite IH. lia.
Qed.

Lemma next_rowid_top (t : table R) :
  top_rowid key t + 1 <= max_rowid ->
  next_rowid key t = Some (top_rowid key t + 1).
Proof.
  intros H. unfold next_rowid.
  destruct (Z.ltb_spec (top_rowid key t) max_rowid); [reflexivity | lia].
Qed.

Lemma top_rowid_after (t : table R) (r : R) :
  key r = top_rowid key t + 1 ->
  top_rowid key {| rows := rows t ++ [r]; seq := top_rowid key t + 1 |}
  = top_rowid key t + 1.
Proof.
  intros Hr. unfold top_rowid at 1. simpl.
  apply fold_max_bounded.
  rewrite map_app. apply Forall_app. split.
  - destruct (fold_max_ge (map key (rows t)) (seq t)) as [_ H].
    eapply Forall_impl; [| exact H].
    unfold top_rowid. simpl. intros; lia.
  - constructor; [lia | constructor].
Qed.

(** A [VALUES] list whose rows no constraint can reject is stored whole,
    with consecutive ids, as long as ids are left. *)
Lemma insert_rows_numbered (mks : list (Z -> R)) :
  (forall mk id, In mk mks -> key (affinity (mk id)) = id) ->
  (forall rs mk id, In mk mks -> violation rs (affinity (mk id)) = None) ->
  forall t,
    top_rowid key t + Z.of_nat (List.length mks) <= max_rowid ->
    exists t',
      insert_rows key affinity violation mks t = inr t'
      /\ rows t' =
         (rows t ++ map affinity (numbered (top_rowid key t + 1) mks))%list.
Proof.
  induction mks as [|mk rest IH]; intros Hkey Hok t Hroom.
  - exists t. simpl. rewrite app_nil_r. split; reflexivity.
  - simpl List.length in Hroom. rewrite Nat2Z.inj_succ in Hroom.
    simpl. unfold insert_row.
    rewrite next_rowid_top by lia.
    rewrite Hok by (left; reflexivity).
    set (r := affinity (mk (top_rowid key t + 1))).
    set (t1 := {| rows := rows t ++ [r]; seq := top_rowid key t + 1 |}).
    assert (Htop : top_rowid key t1 = top_rowid key t + 1).
    { apply top_rowid_after. apply Hkey. left. reflexivity. }
    destruct (IH (fun mk' id H => Hkey mk' id (or_intror H))
                 (fun rs mk' id H => Hok rs mk' id (or_intror H))
                 t1 ltac:(lia)) as (t' & Hins & Hrows).
    exists t'. split; [exact Hins |].
    rewrite Hrows, Htop. simpl. rewrite <- app_assoc. reflexivity.
Qed.
End InsertRowsFacts.

Lemma create_if_not_exists_some {R : Type} (ot : option (table R)) :
  exists t,
    create_if_not_exists ot = Some t
    /\ rows t = rows_of ot
    /\ forall key : R -> Z, top_rowid key t = top_of key ot.
Proof.
  destruct ot as [t|]; simpl.
  - exists t. repeat split.
  - exists empty_table. repeat split.
Qed.

Lemma same_rows_refl (db : store) : same_rows db db.
Proof. unfold same_rows. repeat split. Qed.

Lemma rows_of_create {R : Type} (ot : option (table R)) :
  rows_of (create_if_not_exists ot) = rows_of ot.
Proof. destruct ot; reflexivity. Qed.

(** With the storage layer up, start-up is the creation of the tables
    followed by the seeding test. *)
Lemma initializeDatabase_healthy (io : nat -> fault) (db : store) :
  (forall k, io k = None) ->
  initializeDatabase io db = seed_if_empty io (create_all db).
Proof.
  intros Hio. unfold initializeDatabase, create. rewrite !Hio.
  destruct db; reflexivity.
Qed.

(** Over a table of departments that holds a row, the seeding test does
    nothing, whatever the storage layer does. *)
Lemma seed_if_empty_skips (io : nat -> fault) (db : store) :
  rows_of (departments db) <> [] ->
  seed_if_empty io db = Running db.
Proof.
  intros Hne. unfold seed_if_empty, select_count.
  destruct (io 5%nat); [reflexivity |].
  destruct (departments db) as [t|]; [| reflexivity].
  simpl in Hne. rewrite filter_all_rows.
  destruct (rows t); [congruence | reflexivity].
Qed.

Ltac same_rows_by_creation :=
  unfold same_rows; cbn [store_of departments faculty students courses
                         schedule with_departments with_faculty with_students
                         with_courses with_schedule];
  rewrite ?rows_of_create; repeat split.

(** However far the creation of the tables gets, no row is added while
    [departments] holds one. *)
Lemma initializeDatabase_no_seed (io : nat -> fault) (db : store) :
  rows_of (departments db) <> [] ->
  same_rows db (store_of (initializeDatabase io db)).
Proof.
  intros Hne. unfold initializeDatabase, create.
  destruct (io 0%nat); [apply same_rows_refl |].
  destruct (io 1%nat); [same_rows_by_creation |].
  destruct (io 2%nat); [same_rows_by_creation |].
  destruct (io 3%nat); [same_rows_by_creation |].
  destruct (io 4%nat); [same_rows_by_creation |].
  rewrite seed_if_empty_skips.
  - same_rows_by_creation.
  - cbn [departments with_departments with_faculty with_students
         with_courses with_schedule].
    rewrite rows_of_create. exact Hne.
Qed.

(** A failing [CREATE TABLE] ends the process on the spot. *)
Lemma initializeDatabase_create_fails (io : nat -> fault) (db : store)
    (k : nat) :
  (k < 5)%nat -> io k <> None ->
  exists db' e k',
    initializeDatabase io db = Exited db' e
    /\ (k' <= k)%nat /\ io k' = Some e
    /\ same_rows db db'.
Proof.
  intros Hk Hfail. unfold initializeDatabase, create.
  destruct (io 0%nat) as [m0|] eqn:H0.
  { exists db, m0, 0%nat. repeat split; [lia | exact H0]. }
  destruct (io 1%nat) as [m1|] eqn:H1.
  { eexists. exists m1, 1%nat. split; [reflexivity |].
    split; [destruct k as [|k]; [congruence | lia] |].
    split; [exact H1 | same_rows_by_creation]. }
  destruct (io 2%nat) as [m2|] eqn:H2.
  { eexists. exists m2, 2%nat. split; [reflexivity |].
    split; [destruct k as [|[|k]]; [congruence | congruence | lia] |].
    split; [exact H2 | same_rows_by_creation]. }
  destruct (io 3%nat) as [m3|] eqn:H3.
  { eexists. exists m3, 3%nat. split; [reflexivity |].
    split; [destruct k as [|[|[|k]]]; [congruence .. | lia] |].
    split; [exact H3 | same_rows_by_creation]. }
  destruct (io 4%nat) as [m4|] eqn:H4.
  { eexists. exists m4, 4%nat. split; [reflexivity |].
    split; [destruct k as [|[|[|[|k]]]]; [congruence .. | lia] |].
    split; [exact H4 | same_rows_by_creation]. }
  exfalso. destruct k as [|[|[|[|[|k]]]]]; try congruence. lia.
Qed.

(** C9: when one of the five [CREATE TABLE] statements fails, start-up
    ends the process with the error of the first that failed: no row has
    been written to any table, the seeding test is not reached, and no
    request is served afterwards. *)
Theorem schema_failure_is_fatal (io : nat -> fault) (db : store) (k : nat) :
  (k < 5)%nat ->
  io k <> None ->
  exists db' e,
    initializeDatabase io db = Exited db' e
    /\ (exists k', (k' <= k)%nat /\ io k' = Some e)
    /\ same_rows db db'
    /\ forall a r,
         serve a r (initializeDatabase io db)
         = (None, initializeDatabase io db).
Proof.
  intros Hk Hfail.
  destruct (initializeDatabase_create_fails io db k Hk Hfail)
    as (db' & e & k' & Hexit & Hle & Hio & Hsame).
  exists db', e. split; [exact Hexit |].
  split; [exists k'; split; assumption |].
  split; [exact Hsame |].
  intros a r. rewrite Hexit. reflexivity.
Qed.

(** The seed over tables that exist: with the storage layer up, the two
    unique keys free and ids left, the four INSERT go through. *)
Lemma seed_accepted (io : nat -> fault) (db : store)
    (td : table department_row) (tf : table faculty_row)
    (ts : table student_row) (tc : table course_row) :
  (forall k, io k = None) ->
  departments db = Some td -> faculty db = Some tf ->
  students db = Some ts -> courses db = Some tc ->
  seed_keys_free db = true ->
  seed_ids_left db = true ->
  exists db',
    seed io db = Running db'
    /\ rows_of (departments db')
       = (rows td ++ numbered (top_rowid d_id td + 1) seed_departments)%list
    /\ rows_of (faculty db')
       = (rows tf ++ numbered (top_rowid f_id tf + 1) seed_faculty)%list
    /\ rows_of (students db')
       = (rows ts ++ numbered (top_rowid s_id ts + 1) seed_students)%list
    /\ rows_of (courses db')
       = (rows tc ++ numbered (top_rowid c_id tc + 1) seed_courses)%list
    /\ schedule db' = schedule db.
Proof.
  intros Hio Hd Hf Hs Hc Hfree Hleft.
  unfold seed_keys_free in Hfree. rewrite Hs, Hc in Hfree.
  apply andb_prop in Hfree. destruct Hfree as [Hsid Hcode].
  apply negb_true_iff in Hsid, Hcode. simpl rows_of in Hsid, Hcode.
  unfold seed_ids_left, ids_left in Hleft. rewrite Hd, Hf, Hs, Hc in Hleft.
  simpl top_of in Hleft.
  apply andb_prop in Hleft. destruct Hleft as [Hleft Hlc].
  apply andb_prop in Hleft. destruct Hleft as [Hleft Hls].
  apply andb_prop in Hleft. destruct Hleft as [Hld Hlf].
  apply Z.leb_le in Hld, Hlf, Hls, Hlc.
  destruct (insert_rows_numbered d_id department_affinity department_violation
              seed_departments) with (t := td) as (td' & Hid & Hrd).
  { intros mk id H. simpl in H. intuition (subst; reflexivity). }
  { intros rs mk id H. simpl in H. intuition (subst; reflexivity). }
  { simpl List.length. lia. }
  destruct (insert_rows_numbered f_id faculty_affinity faculty_violation
              seed_faculty) with (t := tf) as (tf' & Hif & Hrf).
  { intros mk id H. simpl in H. intuition (subst; reflexivity). }
  { intros rs mk id H. simpl in H. intuition (subst; reflexivity). }
  { simpl List.length. lia. }
  unfold seed. rewrite !Hio, Hd, Hf, Hs, Hc.
  unfold insert_departments, insert_faculty, insert_students, insert_courses.
  unfold insert_into at 1 2. rewrite Hid, Hif.
  unfold seed_students, seed_courses.
  rewrite (insert_one_accepted s_id student_affinity student_violation
             "students" _ ts (top_rowid s_id ts + 1));
    [| apply next_rowid_top; lia
     | unfold student_violation, first_violation; simpl; rewrite Hsid;
       reflexivity].
  rewrite (insert_one_accepted c_id course_affinity course_violation
             "courses" _ tc (top_rowid c_id tc + 1));
    [| apply next_rowid_top; lia
     | unfold course_violation, first_violation; simpl; rewrite Hcode;
       reflexivity].
  eexists. split; [reflexivity |].
  cbn [rows_of departments faculty students courses schedule rows].
  rewrite Hrd, Hrf. repeat split.
Qed.

(** C3 (as the seeding runs): over a [departments] table that holds a
    row, start-up adds no row to any table, whatever happens to its
    statements; over an empty one, with the storage layer up, the seed's
    [student_id] and [course_code] not in use and ids left, it adds the
    four departments, the two faculty rows, the student and the course
    of the seed, and nothing else. *)
Theorem seed_only_when_empty (io : nat -> fault) (db : store) :
  (rows_of (departments db) <> [] ->
   same_rows db (store_of (initializeDatabase io db)))
  /\ (rows_of (departments db) = [] ->
      (forall k, io k = None) ->
      seed_keys_free db = true ->
      seed_ids_left db = true ->
      exists db',
        initializeDatabase io db = Running db'
        /\ rows_of (departments db')
           = numbered (top_of d_id (departments db) + 1) seed_departments
        /\ rows_of (faculty db')
           = (rows_of (faculty db)
              ++ numbered (top_of f_id (faculty db) + 1) seed_faculty)%list
        /\ rows_of (students db')
           = (rows_of (students db)
              ++ numbered (top_of s_id (students db) + 1) seed_students)%list
        /\ rows_of (courses db')
           = (rows_of (courses db)
              ++ numbered (top_of c_id (courses db) + 1) seed_courses)%list
        /\ rows_of (schedule db') = rows_of (schedule db)).
Proof.
  split; [apply initializeDatabase_no_seed |].
  intros Hempty Hio Hfree Hleft.
  rewrite initializeDatabase_healthy by exact Hio.
  destruct (create_if_not_exists_some (departments db)) as (td & Hd & Hrd & Htd).
  destruct (create_if_not_exists_some (faculty db)) as (tf & Hf & Hrf & Htf).
  destruct (create_if_not_exists_some (students db)) as (ts & Hs & Hrs & Hts).
  destruct (create_if_not_exists_some (courses db)) as (tc & Hc & Hrc & Htc).
  destruct (seed_accepted io (create_all db) td tf ts tc Hio Hd Hf Hs Hc)
    as (db' & Hseed & Kd & Kf & Ks & Kc & Kh).
  { unfold seed_keys_free in *. cbn [create_all students courses].
    rewrite !rows_of_create. exact Hfree. }
  { unfold seed_ids_left, ids_left in *.
    cbn [create_all departments faculty students courses].
    rewrite Hd, Hf, Hs, Hc. cbn [top_of].
    rewrite Htd, Htf, Hts, Htc. exact Hleft. }
  exists db'. split.
  - unfold seed_if_empty, select_count. rewrite Hio.
    cbn [create_all departments]. rewrite Hd, filter_all_rows, Hrd, Hempty.
    exact Hseed.
  - rewrite Kd, Kf, Ks, Kc, Kh, Hrd, Hrf, Hrs, Hrc, Htd, Htf, Hts, Htc, Hempty.
    cbn [create_all schedule]. rewrite rows_of_create. repeat split.
Qed.

(** *** Further properties of the handlers *)


Lemma student_id_free (rs : list student_row) (v : sqlval) :
  v <> SNull -> student_id_taken rs v = false ->
  ~ In v (map s_student_id rs).
Proof.
  intros Hnn Hfree Hin. apply in_map_iff in Hin.
  destruct Hin as (r & <- & Hr).
  rewrite student_id_taken_In in Hfree; [discriminate | exact Hr | exact Hnn].
Qed.

Lemma student_violation_none (rs : list student_row) (r : student_row) :
  student_violation rs r = None ->
  s_student_id r <> SNull /\ student_id_taken rs (s_student_id r) = false.
Proof.
  unfold student_violation, first_violation. simpl.
  destruct (is_null (s_student_id r)) eqn:Hnull; [discriminate |].
  destruct (is_null (s_first_name r)); [discriminate |].
  destruct (is_null (s_last_name r)); [discriminate |].
  destruct (negb (status_ok (s_status r))); [discriminate |].
  destruct (student_id_taken rs (s_student_id r)); [discriminate |].
  intros _. split; [| reflexivity].
  intros E. rewrite E in Hnull. discriminate.
Qed.

Lemma insert_students_distinct (mks : list (Z -> student_row))
    (t t' : table student_row) :
  insert_rows s_id student_affinity student_violation mks t = inr t' ->
  student_ids_distinct (rows t) -> student_ids_distinct (rows t').
Proof.
  revert t. induction mks as [|mk rest IH]; simpl; intros t Hins Hd.
  - injection Hins as <-. exact Hd.
  - unfold insert_row in Hins.
    destruct (next_rowid s_id t) as [id|]; [| discriminate].
    destruct (student_violation (rows t) (student_affinity (mk id)))
      eqn:Hv; [discriminate |].
    apply IH in Hins; [exact Hins |].
    apply student_violation_none in Hv. destruct Hv as [Hnn Hfree].
    destruct Hd as [Hall Hnd]. simpl. split.
    + apply Forall_app. split; [exact Hall | constructor; [exact Hnn | constructor]].
    + rewrite map_app. simpl.
      apply Permutation_NoDup with (l := (s_student_id (student_affinity (mk id))
                                          :: map s_student_id (rows t))%list).
      * apply Permutation_cons_append.
      * constructor; [apply student_id_free; assumption | exact Hnd].
Qed.

(** X3: uniqueness of [student_id] is an invariant of the student
    handler: whatever the request and the outcome, a table whose
    [student_id]s are non-NULL and pairwise distinct stays so. *)
Theorem student_ids_stay_distinct (f : fault) (random : Q) (b : body)
    (db : store) :
  student_ids_distinct (rows_of (students db)) ->
  student_ids_distinct
    (rows_of (students (snd (post_api_students f random b db)))).
Proof.
  intros Hd. unfold post_api_students.
  destruct (initials b) as [ini|e]; [| exact Hd].
  destruct (insert_students f [student_params b ini (randomColor random)]
              (students db)) as [err|t'] eqn:Hins; [exact Hd |].
  simpl. unfold insert_students, insert_into in Hins.
  destruct f; [discriminate |].
  destruct (students db) as [t|]; [| discriminate].
  eapply insert_students_distinct; [exact Hins | exact Hd].
Qed.

(* ------------------------------------------------------------------ *)
(** ** The properties on the worked stores *)

(** John Doe gets the initials JD. *)
Example initials_john : initials john = Js.Normal (Js.Str "JD").
Proof. reflexivity. Qed.

Lemma student_avatar_initials_witness :
  initials john = Js.Normal (Js.Str "JD")
  /\ exists t row,
       students seeded = Some t
       /\ rows_of (students enrolled) = (rows t ++ [row])%list
       /\ res_json (saved "Student" 2) = res_json (saved "Student" (s_id row))
       /\ s_avatar_initials row = SText "JD".
Proof.
  destruct (student_avatar_initials None (3 # 4) john seeded "John" "Doe"
              eq_refl eq_refl) as (_ & _ & Hbmp).
  destruct (Hbmp eq_refl eq_refl) as (Hini & Hstored).
  split; [exact Hini |].
  exact (Hstored (res_json (saved "Student" 2)) enrolled eq_refl eq_refl).
Defined.

(** The UTF-8 text of the worked names: U+00C9 takes two bytes, U+20BB7
    four and U+7530 three; a high surrogate without its low one is
    replaced by U+FFFD, which takes three. *)
Example utf8_elodie :
  Js.utf8 (Js.unit_of 201 :: Js.lit "lodie")
  = String (ascii_of_N 195) (String (ascii_of_N 137) "lodie").
Proof. reflexivity. Qed.

Example utf8_yoshida :
  Js.utf8 yoshida
  = String (ascii_of_N 240) (String (ascii_of_N 160)
      (String (ascii_of_N 174) (String (ascii_of_N 183)
        (String (ascii_of_N 231) (String (ascii_of_N 148)
          (String (ascii_of_N 176) EmptyString)))))).
Proof. reflexivity. Qed.

Example utf8_lone_surrogate :
  Js.utf8 [Js.unit_of 55362]
  = String (ascii_of_N 239) (String (ascii_of_N 191)
      (String (ascii_of_N 189) EmptyString)).
Proof. reflexivity. Qed.

Example utf8_lone_low_surrogate :
  Js.utf8 (Js.unit_of 57271 :: Js.lit "a")
  = String (ascii_of_N 239) (String (ascii_of_N 191)
      (String (ascii_of_N 189) "a")).
Proof. reflexivity. Qed.

(** A first name that starts with U+00C9 and an empty last name: the
    initials are that one character. *)
Example initials_elodie :
  exists db' row,
    post_api_students None 0 elodie seeded
    = (Sent (res_json (saved "Student" 2)), db')
    /\ rows_of (students db') = (rows_of (students seeded) ++ [row])%list
    /\ s_avatar_initials row
       = SText (String (ascii_of_N 195) (String (ascii_of_N 137) EmptyString)).
Proof. eexists. eexists. split; [reflexivity |]. split; reflexivity. Qed.

(** C1, as stated, fails on [astral]: the first character of the name is
    the pair of units D842 DFB7, the handler takes the first unit alone,
    and the text stored for that lone surrogate is U+FFFD, not the
    character. *)
Lemma astral_initial_replaced :
  first_name astral = Js.Str yoshida
  /\ last_name astral = Js.Str "Doe"
  /\ Js.first_character yoshida = [Js.unit_of 55362; Js.unit_of 57271]
  /\ exists db' row,
       post_api_students None 0 astral seeded
       = (Sent (res_json (saved "Student" 2)), db')
       /\ rows_of (students db') = (rows_of (students seeded) ++ [row])%list
       /\ s_avatar_initials row
          = SText (Js.utf8 [Js.unit_of Js.replacement] ++ "D")
       /\ s_avatar_initials row
          <> SText (Js.utf8 (Js.first_character yoshida)
                    ++ Js.utf8 (Js.first_character "Doe")).
Proof.
  split; [reflexivity |]. split; [reflexivity |]. split; [reflexivity |].
  eexists. eexists. split; [reflexivity |]. split; [reflexivity |].
  split; [reflexivity |]. vm_compute. discriminate.
Qed.

(** C2, as stated, fails on [john_again]: the store holds a student with
    the [student_id] of the request, yet the request, which lacks its
    [last_name], is not answered 500: the handler throws before the
    INSERT and sends no document. *)
Lemma duplicate_without_name_throws :
  In john_row (rows_of (students enrolled))
  /\ s_student_id john_row
     = text_affinity (bind_param (student_id john_again))
  /\ post_api_students None (1 # 2) john_again enrolled
     = (Threw Js.type_error_undefined, enrolled)
  /\ forall r,
       post_api_students None (1 # 2) john_again enrolled
       <> (Sent r, enrolled).
Proof.
  split; [right; left; reflexivity |].
  split; [reflexivity |]. split; [reflexivity |].
  intros r. vm_compute. discriminate.
Qed.

Lemma duplicate_student_id_rejected_witness :
  exists err,
    post_api_students None (1 # 2) john enrolled
    = (Sent (res_status_json 500 (error_body (message err))), enrolled)
    /\ In john_row (rows_of (students enrolled))
    /\ err = UniqueFailed "students.student_id".
Proof.
  destruct (duplicate_student_id_rejected None (1 # 2) john enrolled
              enrolled_students john_row eq_refl
              (or_intror (or_introl eq_refl)) eq_refl eq_refl eq_refl)
    as (err & Hpost & Hin & Hunique).
  exists err. split; [exact Hpost |]. split; [exact Hin |].
  apply Hunique; [reflexivity | discriminate | reflexivity].
Defined.

Lemma student_avatar_color_witness :
  exists t row,
    students seeded = Some t
    /\ rows_of (students enrolled) = (rows t ++ [row])%list
    /\ res_json (saved "Student" 2) = res_json (saved "Student" (s_id row))
    /\ In (s_avatar_color row)
          [SText "blue"; SText "amber"; SText "rose"; SText "cyan"].
Proof.
  refine (proj1 (student_avatar_color None (3 # 4) john seeded enrolled
                   (res_json (saved "Student" 2)) _ _ eq_refl eq_refl)).
  - discriminate.
  - reflexivity.
Defined.

Lemma missing_name_throws_witness :
  exists e,
    post_api_students None (1 # 2) nameless seeded = (Threw e, seeded)
    /\ (e = Js.type_error_undefined \/ e = Js.type_error_null).
Proof.
  exact (missing_name_throws None (1 # 2) nameless seeded
           (or_intror eq_refl)).
Defined.

Lemma stats_counters_witness :
  get_api_stats None None None [2; 0; 1]%nat retired
  = Sent (res_json
            (JObject [("total_students", JNumber 2);
                      ("active_courses", JNumber 1);
                      ("faculty_staff", JNumber 2);
                      ("fee_collection", JString "$2.4M")]))
  /\ List.length (rows_of (courses retired)) = 3%nat
  /\ exists active inactive,
       Permutation (rows_of (courses retired)) (active ++ inactive)
       /\ Forall (fun c => c_isActive c = SInt 1) active
       /\ Forall (fun c => c_isActive c <> SInt 1) inactive
       /\ List.length active = 1%nat
       /\ List.length inactive = 2%nat.
Proof.
  split; [reflexivity |]. split; [reflexivity |].
  destruct (stats_counters None None None [2; 0; 1]%nat retired
              (res_json
                 (JObject [("total_students", JNumber 2);
                           ("active_courses", JNumber 1);
                           ("faculty_staff", JNumber 2);
                           ("fee_collection", JString "$2.4M")]))
              eq_refl eq_refl)
    as (ss & cs & fs & active & inactive & _ & Hcs & _ & Hperm & Hact
        & Hin & Hdoc).
  injection Hcs as <-.
  exists active, inactive.
  split; [exact Hperm |]. split; [exact Hact |]. split; [exact Hin |].
  assert (Hone : List.length active = 1%nat).
  { simpl in Hdoc. injection Hdoc as Hdoc. lia. }
  split; [exact Hone |].
  apply Permutation_length in Hperm.
  rewrite length_app, Hone in Hperm. simpl in Hperm. lia.
Defined.

Lemma stats_all_or_nothing_witness :
  (exists e,
     get_api_stats None (Some "SQLITE_IOERR: disk I/O error") None
                   [0; 1; 2]%nat enrolled
     = Sent (res_status_json 500 (error_body (message e)))
     /\ In (inl e)
           (stats_queries None (Some "SQLITE_IOERR: disk I/O error") None
                          enrolled))
  /\ forall r,
       get_api_stats None (Some "SQLITE_IOERR: disk I/O error") None
                     [0; 1; 2]%nat enrolled = Sent r ->
       status r <> 200.
Proof.
  exact (stats_all_or_nothing None (Some "SQLITE_IOERR: disk I/O error") None
           [0; 1; 2]%nat enrolled (Fault "SQLITE_IOERR: disk I/O error")
           (or_intror (or_introl eq_refl))).
Defined.

Lemma recent_enrollments_window_witness :
  exists rs,
    select_recent None crowded = inr rs
    /\ (List.length rs <= 5)%nat
    /\ StronglySorted desc rs
    /\ map (fun j => s_id (fst j)) rs = [7; 6; 5; 4; 3].
Proof.
  destruct (recent_enrollments_window None crowded
              (res_json (JObject [("data", JArray (map row_json crowded_view))]))
              eq_refl eq_refl)
    as (rs & Hsel & _ & Hlen & Hsorted & _).
  exists rs. repeat split; try assumption.
  injection Hsel as <-. reflexivity.
Defined.

(** In [enrolled], [john] has no department and is the latest student: his
    row is in the view, with a null [department_name]. *)
Lemma null_department_row_kept_witness :
  exists rs,
    get_api_enrollments_recent None enrolled
    = Sent (res_json (JObject [("data", JArray (map row_json rs))]))
    /\ In (john_row, SNull) rs
    /\ (forall n, In (john_row, n) rs -> n = SNull)
    /\ exists fields,
         row_json (john_row, SNull)
         = JObject (fields ++ [("department_name", JNull)])%list.
Proof.
  refine (null_department_row_kept enrolled enrolled_students
            enrolled_departments john_row eq_refl eq_refl _
            (or_intror (or_introl eq_refl)) eq_refl _).
  - repeat constructor; simpl; intuition discriminate.
  - apply Nat.leb_le. reflexivity.
Defined.

(** C7, as stated, fails on [crowded]: [john] has no department and is a
    student of the table, five students were created after him, and the
    five rows of the view are theirs, none is his. *)
Lemma null_department_cut_by_limit :
  In john_row (rows_of (students crowded))
  /\ s_department_id john_row = SNull
  /\ select_recent None crowded = inr crowded_view
  /\ map (fun j => s_id (fst j)) crowded_view = [7; 6; 5; 4; 3]
  /\ forall n, ~ In (john_row, n) crowded_view.
Proof.
  split; [right; left; reflexivity |].
  split; [reflexivity |].
  split; [reflexivity |].
  split; [reflexivity |].
  intros n Hin.
  apply (in_map (fun j => s_id (fst j))) in Hin.
  simpl in Hin. intuition discriminate.
Qed.

Lemma seed_only_when_empty_witness :
  same_rows seeded (store_of (initializeDatabase healthy seeded))
  /\ exists db',
       initializeDatabase healthy fresh = Running db'
       /\ rows_of (departments db') = numbered 1 seed_departments
       /\ rows_of (faculty db') = numbered 1 seed_faculty
       /\ rows_of (students db') = numbered 1 seed_students
       /\ rows_of (courses db') = numbered 1 seed_courses
       /\ rows_of (schedule db') = [].
Proof.
  split.
  - apply (proj1 (seed_only_when_empty healthy seeded)). discriminate.
  - exact (proj2 (seed_only_when_empty healthy fresh) eq_refl
             (fun _ => eq_refl) eq_refl eq_refl).
Defined.

(** C3, as stated, fails on [interrupted]: its [departments] table is
    empty and ids are left, yet start-up stores no student: the INSERT of
    the seed student is rejected by the UNIQUE constraint on
    [student_id], and the process ends on that error. *)
Lemma seed_student_rejected :
  rows_of (departments interrupted) = []
  /\ seed_ids_left interrupted = true
  /\ List.length (rows_of (students interrupted)) = 1%nat
  /\ exists db',
       initializeDatabase healthy interrupted
       = Exited db' (message (UniqueFailed "students.student_id"))
       /\ rows_of (students db') = rows_of (students interrupted)
       /\ List.length (rows_of (students db')) = 1%nat.
Proof.
  split; [reflexivity |]. split; [reflexivity |]. split; [reflexivity |].
  eexists. split; [vm_compute; reflexivity |].
  split; reflexivity.
Qed.

Lemma schema_failure_is_fatal_witness :
  exists db' e,
    initializeDatabase no_students_table fresh = Exited db' e
    /\ (exists k', (k' <= 2)%nat /\ no_students_table k' = Some e)
    /\ same_rows fresh db'
    /\ forall a r,
         serve a r (initializeDatabase no_students_table fresh)
         = (None, initializeDatabase no_students_table fresh).
Proof.
  refine (schema_failure_is_fatal no_students_table fresh 2 _ _).
  - apply Nat.ltb_lt. reflexivity.
  - discriminate.
Defined.

Lemma student_ids_stay_distinct_witness :
  student_ids_distinct (rows_of (students enrolled)).
Proof.
  refine (student_ids_stay_distinct None (3 # 4) john seeded _).
  split.
  - repeat constructor. discriminate.
  - repeat constructor. simpl. tauto.
Defined.

(* ------------------------------------------------------------------ *)
(** ** Further properties *)

Import Derived.

(** *** The student handler on every body *)

Lemma nullish_binds_null (v : Js.value) :
  Js.nullish v = true -> bind_param v = SNull.
Proof. destruct v; simpl; intros H; try discriminate H; reflexivity. Qed.

Lemma binds_not_null_names (b : body) :
  binds_not_null b = true ->
  bind_param (student_id b) <> SNull
  /\ Js.nullish (first_name b) = false /\ Js.nullish (last_name b) = false
  /\ is_null (bind_param (first_name b)) = false
  /\ is_null (bind_param (last_name b)) = false.
Proof.
  unfold binds_not_null. intros H.
  apply andb_prop in H. destruct H as [H H3].
  apply andb_prop in H. destruct H as [H1 H2].
  apply negb_true_iff in H1, H2, H3.
  repeat split; try assumption.
  - intros E. rewrite E in H1. discriminate.
  - destruct (Js.nullish (first_name b)) eqn:E; [| reflexivity].
    rewrite (nullish_binds_null _ E) in H2. discriminate.
  - destruct (Js.nullish (last_name b)) eqn:E; [| reflexivity].
    rewrite (nullish_binds_null _ E) in H3. discriminate.
Qed.

(** What the constraints of [students] ask of a row. *)
Lemma student_violation_none_iff (rs : list student_row) (r : student_row) :
  student_violation rs r = None <->
  is_null (s_student_id r) = false /\ is_null (s_first_name r) = false
  /\ is_null (s_last_name r) = false /\ status_ok (s_status r) = true
  /\ student_id_taken rs (s_student_id r) = false.
Proof.
  unfold student_violation, first_violation. simpl.
  destruct (is_null (s_student_id r)), (is_null (s_first_name r)),
    (is_null (s_last_name r)), (status_ok (s_status r)),
    (student_id_taken rs (s_student_id r)); simpl;
    split; intros H; try discriminate H; try reflexivity;
    try (repeat split; reflexivity);
    destruct H as (H1 & H2 & H3 & H4 & H5); discriminate.
Qed.

(** X4: on a body whose fields are absent, null, booleans, numbers of
    the 32-bit range or strings, the student handler throws exactly when
    [first_name] or [last_name] is undefined or null, and then leaves
    the store as it was; on every other such body it sends a JSON
    answer. *)
Theorem student_creation_throws_iff (f : fault) (random : Q) (b : body)
    (db : store) :
  ((exists e, fst (post_api_students f random b db) = Threw e)
   <-> Js.nullish (first_name b) = true \/ Js.nullish (last_name b) = true)
  /\ ((exists r, fst (post_api_students f random b db) = Sent r)
      <-> Js.nullish (first_name b) = false
          /\ Js.nullish (last_name b) = false)
  /\ forall e, fst (post_api_students f random b db) = Threw e ->
       snd (post_api_students f random b db) = db.
Proof.
  destruct (Js.nullish (first_name b) || Js.nullish (last_name b)) eqn:Hn.
  - apply orb_true_iff in Hn.
    destruct (initials_throws b Hn) as (e & He & _).
    unfold post_api_students. rewrite He. simpl.
    split; [| split].
    + split; [intros _; exact Hn | intros _; exists e; reflexivity].
    + split.
      * intros (r & Hr). discriminate Hr.
      * intros [H1 H2]. rewrite H1, H2 in Hn. destruct Hn; discriminate.
    + intros _ _. reflexivity.
  - apply orb_false_iff in Hn. destruct Hn as [Hf Hl].
    destruct (initials_completes b Hf Hl) as (ini & Hini).
    destruct (post_api_students_answers f random b db _ Hini)
      as (r & db' & Hp).
    rewrite Hp. simpl.
    split; [| split].
    + split.
      * intros (e & He). discriminate He.
      * rewrite Hf, Hl. intros [H|H]; discriminate H.
    + split; [intros _; split; assumption | intros _; exists r; reflexivity].
    + intros e He. discriminate He.
Qed.

(** X5: a creation is answered 200 exactly when the storage layer is
    up, the table exists, an id is left, the parameters of the three
    NOT NULL columns are bound to values, and the text the [student_id]
    is stored as (the UTF-8 text of a string, the decimal digits of a
    number of the 32-bit range or of a boolean's 1 or 0) is not stored
    yet. *)
Theorem student_creation_succeeds_iff (f : fault) (random : Q) (b : body)
    (db : store) :
  (exists r db',
     post_api_students f random b db = (Sent r, db') /\ status r = 200)
  <-> f = None /\ binds_not_null b = true
      /\ exists t,
           students db = Some t /\ next_rowid s_id t <> None
           /\ student_id_taken (rows t)
                (text_affinity (bind_param (student_id b))) = false.
Proof.
  split.
  - intros (r & db' & Hpost & Hok).
    unfold post_api_students in Hpost.
    destruct (initials b) as [ini|e] eqn:Hini; [| discriminate].
    destruct (insert_students f [student_params b ini (randomColor random)]
                (students db)) as [err|t'] eqn:Hins.
    { injection Hpost as <- _. simpl in Hok. discriminate. }
    apply insert_one_inr in Hins.
    destruct Hins as [-> (t & id & Ht & Hid & Hv & _)].
    apply student_violation_none_iff in Hv. simpl in Hv.
    rewrite !text_affinity_null in Hv.
    destruct Hv as (H1 & H2 & H3 & _ & H5).
    split; [reflexivity |]. split.
    + unfold binds_not_null. rewrite H1, H2, H3. reflexivity.
    + exists t. repeat split; [exact Ht | congruence | exact H5].
  - intros (-> & Hb & t & Ht & Hid & Hfree).
    destruct (binds_not_null_names b Hb) as (Hsid & Hf & Hl & Hfn & Hln).
    destruct (initials_completes b Hf Hl) as (ini & Hini).
    destruct (next_rowid s_id t) as [id|] eqn:Hnext; [| congruence].
    unfold post_api_students. rewrite Hini, Ht.
    unfold insert_students.
    rewrite (insert_one_accepted s_id student_affinity student_violation
               "students" _ t id Hnext).
    + eexists. eexists. split; reflexivity.
    + apply student_violation_none_iff. simpl.
      rewrite !text_affinity_null, Hfn, Hln.
      repeat split; try assumption.
      destruct (bind_param (student_id b)); [congruence | reflexivity ..].
Qed.

(** X6: whatever the request and the outcome, the student handler leaves
    the four other tables as they were, keeps every stored student in
    place, and adds at most one row after them. *)
Theorem student_creation_frame (f : fault) (random : Q) (b : body)
    (db : store) :
  departments (snd (post_api_students f random b db)) = departments db
  /\ faculty (snd (post_api_students f random b db)) = faculty db
  /\ courses (snd (post_api_students f random b db)) = courses db
  /\ schedule (snd (post_api_students f random b db)) = schedule db
  /\ exists more,
       rows_of (students (snd (post_api_students f random b db)))
       = (rows_of (students db) ++ more)%list
       /\ (List.length more <= 1)%nat.
Proof.
  unfold post_api_students.
  destruct (initials b) as [ini|e].
  - destruct (insert_students f [student_params b ini (randomColor random)]
                (students db)) as [err|t'] eqn:Hins; simpl.
    + repeat split. exists []. rewrite app_nil_r. split; [reflexivity | simpl; lia].
    + repeat split.
      apply insert_one_inr in Hins.
      destruct Hins as [_ (t & id & Ht & _ & _ & ->)].
      rewrite Ht. simpl. eexists. split; [reflexivity | simpl; lia].
  - simpl. repeat split. exists []. rewrite app_nil_r.
    split; [reflexivity | simpl; lia].
Qed.

(** The value of the derivation, on every body on which it completes. *)
Lemma initials_value (b : body) (v : Js.value) :
  initials b = Js.Normal v ->
  v = Js.Str (leading_unit (first_name b) ++ leading_unit (last_name b))%list.
Proof.
  unfold initials, leading_unit.
  destruct (first_name b) as [| |x|x|[|c x]];
    destruct (last_name b) as [| |y|y|[|d y]];
    simpl; intros H; try discriminate H; injection H as <-; reflexivity.
Qed.

Lemma leading_unit_length (v : Js.value) :
  (List.length (leading_unit v) <= 1)%nat.
Proof. destruct v as [| |x|x|[|u s]]; simpl; lia. Qed.

(** X7: when the derivation of the initials completes, whatever the
    fields hold, its value is a string of at most two units: the first
    unit of each name that is a non-empty string, in order; a number or
    a boolean gives nothing. *)
Theorem initials_at_most_two (b : body) (v : Js.value) :
  initials b = Js.Normal v ->
  v = Js.Str (leading_unit (first_name b) ++ leading_unit (last_name b))%list
  /\ (List.length (leading_unit (first_name b)
                   ++ leading_unit (last_name b))%list <= 2)%nat.
Proof.
  intros H. split; [apply initials_value; exact H |].
  rewrite length_app.
  pose proof (leading_unit_length (first_name b)).
  pose proof (leading_unit_length (last_name b)). lia.
Qed.

(** X8: a creation whose [student_id] is absent or null, names present,
    is answered 500 and writes nothing; with the storage layer up, the
    table there and an id left, the error is the NOT NULL failure on
    [students.student_id]. *)
Theorem missing_student_id_rejected (f : fault) (random : Q) (b : body)
    (db : store) :
  bind_param (student_id b) = SNull ->
  Js.nullish (first_name b) = false ->
  Js.nullish (last_name b) = false ->
  exists err,
    post_api_students f random b db
    = (Sent (res_status_json 500 (error_body (message err))), db)
    /\ (f = None -> forall t, students db = Some t ->
        next_rowid s_id t <> None ->
        err = NotNullFailed "students.student_id").
Proof.
  intros Hsid Hf Hl.
  destruct (initials_completes b Hf Hl) as (ini & Hini).
  unfold post_api_students. rewrite Hini.
  destruct f as [m|].
  - exists (Fault m). split; [reflexivity | discriminate].
  - destruct (students db) as [t|].
    + simpl. unfold insert_row.
      destruct (next_rowid s_id t) as [id|] eqn:Hid.
      * unfold student_violation, first_violation. simpl.
        rewrite Hsid. simpl.
        exists (NotNullFailed "students.student_id").
        split; [reflexivity | reflexivity].
      * exists Full. split; [reflexivity |].
        intros _ t0 [= <-] H. congruence.
    + exists (NoSuchTable "students"). split; [reflexivity |].
      intros _ t0 H. discriminate H.
Qed.

(** In the store a creation leaves, the view starts with the row the
    parameters of the request describe. *)
Lemma created_row_heads_view (f0 : fault) (random : Q) (b : body)
    (db0 db : store) (r0 : response) (ds : table department_row) :
  post_api_students f0 random b db0 = (Sent r0, db) ->
  status r0 = 200 ->
  departments db0 = Some ds ->
  exists ini id name rest,
    initials b = Js.Normal ini
    /\ r0 = res_json (saved "Student" id)
    /\ select_recent None db
       = inr ((student_affinity (student_params b ini (randomColor random) id),
               name) :: rest).
Proof.
  intros Hpost Hok Hds.
  destruct (post_api_students_saved _ _ _ _ _ _ Hpost Hok)
    as (ini & t & id & Hini & Ht & Hid & Hr & Hdb).
  apply next_rowid_above in Hid. destruct Hid as [Hold _].
  rewrite Forall_forall in Hold.
  exists ini, id.
  unfold select_recent. subst db. simpl. rewrite Hds.
  set (new := student_affinity (student_params b ini (randomColor random) id)).
  set (L := left_join (rows t ++ [new]) (rows ds)).
  pose proof (order_by_id_desc_perm L) as Hperm.
  pose proof (order_by_id_desc_sorted L) as Hsorted.
  destruct (left_join_total (rows t ++ [new]) (rows ds) new) as (n & Hn).
  { apply in_or_app. right. left. reflexivity. }
  fold L in Hn.
  apply (Permutation_in _ (Permutation_sym Hperm)) in Hn.
  destruct (order_by_id_desc L) as [|[s name] rest] eqn:HS; [destruct Hn |].
  assert (Hs : s = new).
  { assert (Hge : id <= s_id s).
    { inversion Hsorted as [|? ? _ Hall]; subst.
      destruct Hn as [[= -> _]|Hn]; [simpl; lia |].
      rewrite Forall_forall in Hall. apply (Hall _ Hn). }
    assert (Hfrom : In s (rows t ++ [new])).
    { apply (left_join_from _ (rows ds) (s, name)). fold L.
      apply (Permutation_in _ Hperm). left. reflexivity. }
    apply in_app_or in Hfrom. destruct Hfrom as [Hin|[<-|[]]].
    - specialize (Hold _ Hin). simpl in Hold. lia.
    - reflexivity. }
  subst s. exists name, (firstn 4 rest).
  repeat split; [exact Hini | exact Hr].
Qed.

(** X9: what a creation stores comes back first from the view: the row
    with the id of the answer, the submitted [student_id], [first_name],
    [last_name] and [email] as the driver binds them and the TEXT
    columns keep them (a string as its UTF-8 text, a number of the 32-bit
    range as its decimal digits), the [status] Pending whatever the body
    says, as [avatar_initials] the UTF-8 text of the leading units of
    the two names, and the colour the handler drew. *)
Theorem created_student_listed (f0 : fault) (random : Q) (b : body)
    (db0 db : store) (r0 : response) (ds : table department_row) :
  post_api_students f0 random b db0 = (Sent r0, db) ->
  status r0 = 200 ->
  departments db0 = Some ds ->
  exists row name rest,
    select_recent None db = inr ((row, name) :: rest)
    /\ r0 = res_json (saved "Student" (s_id row))
    /\ s_student_id row = text_affinity (bind_param (student_id b))
    /\ s_first_name row = text_affinity (bind_param (first_name b))
    /\ s_last_name row = text_affinity (bind_param (last_name b))
    /\ s_email row = text_affinity (bind_param (email b))
    /\ s_status row = SText "Pending"
    /\ initials b = Js.Normal (Js.Str (leading_unit (first_name b)
                                       ++ leading_unit (last_name b))%list)
    /\ s_avatar_initials row
       = SText (Js.utf8 (leading_unit (first_name b)
                         ++ leading_unit (last_name b))%list)
    /\ s_avatar_color row = text_affinity (bind_param (randomColor random)).
Proof.
  intros Hpost Hok Hds.
  destruct (created_row_heads_view _ _ _ _ _ _ _ Hpost Hok Hds)
    as (ini & id & name & rest & Hini & Hr & Hsel).
  pose proof (initials_value b ini Hini) as ->.
  eexists. exists name, rest.
  split; [exact Hsel |].
  simpl. repeat split; try reflexivity; assumption.
Qed.

(** A row whose [student_id] is stored already is refused by the INSERT,
    whatever else it holds. *)
Lemma insert_duplicate_fails (f : fault) (mk : Z -> student_row)
    (t : table student_row) (r0 : student_row) :
  In r0 (rows t) ->
  (forall id, s_student_id (student_affinity (mk id)) = s_student_id r0) ->
  exists e, insert_students f [mk] (Some t) = inl e.
Proof.
  intros Hin Hsame. unfold insert_students, insert_into.
  destruct f as [m|]; [eexists; reflexivity |].
  simpl. unfold insert_row.
  destruct (next_rowid s_id t) as [id|]; [| eexists; reflexivity].
  destruct (duplicate_violates (rows t) r0 (student_affinity (mk id)) Hin
              (Hsame id)) as (e & He).
  rewrite He. eexists. reflexivity.
Qed.

(** X10: [student_id] is compared as text.  Once a creation went
    through, a creation whose [student_id] is stored as the same text
    (the same string, or a number of the 32-bit range and the string of
    its decimal digits, either way round) is answered 500 and writes
    nothing. *)
Theorem student_id_compared_as_text (f1 f2 : fault) (q1 q2 : Q)
    (b1 b2 : body) (db db1 : store) (r1 : response) :
  post_api_students f1 q1 b1 db = (Sent r1, db1) ->
  status r1 = 200 ->
  text_affinity (bind_param (student_id b2))
  = text_affinity (bind_param (student_id b1)) ->
  Js.nullish (first_name b2) = false ->
  Js.nullish (last_name b2) = false ->
  (exists msg,
     post_api_students f2 q2 b2 db1
     = (Sent (res_status_json 500 (error_body msg)), db1))
  /\ forall n,
       text_affinity (bind_param (Js.Num n))
       = text_affinity (bind_param (Js.Str (decimal (Js.int32_value n)))).
Proof.
  intros Hpost Hok Hsame Hf Hl.
  split; [| intros n; simpl; rewrite utf8_decimal; reflexivity].
  destruct (post_api_students_saved _ _ _ _ _ _ Hpost Hok)
    as (ini & t & id & _ & _ & _ & _ & ->).
  destruct (initials_completes b2 Hf Hl) as (ini2 & Hini2).
  unfold post_api_students. rewrite Hini2. simpl students.
  set (new := student_affinity (student_params b1 ini (randomColor q1) id)).
  destruct (insert_duplicate_fails f2
              (student_params b2 (Js.Str ini2) (randomColor q2))
              {| rows := rows t ++ [new]; seq := id |} new) as (e & He).
  { simpl. apply in_or_app. right. left. reflexivity. }
  { intros id'. simpl. exact Hsame. }
  rewrite He. eexists. reflexivity.
Qed.

Lemma student_row_id (b : body) (ini color : Js.value) (id : Z) :
  s_id (student_affinity (student_params b ini color id)) = id.
Proof. reflexivity. Qed.

(** X11: ids are handed out in sequence: of two creations that go
    through one after the other, the second gets the id after the
    first's. *)
Theorem consecutive_creations_consecutive_ids (f1 f2 : fault) (q1 q2 : Q)
    (b1 b2 : body) (db db1 db2 : store) (r1 r2 : response) :
  post_api_students f1 q1 b1 db = (Sent r1, db1) ->
  status r1 = 200 ->
  post_api_students f2 q2 b2 db1 = (Sent r2, db2) ->
  status r2 = 200 ->
  exists id,
    r1 = res_json (saved "Student" id)
    /\ r2 = res_json (saved "Student" (id + 1)).
Proof.
  intros Hp1 Hok1 Hp2 Hok2.
  destruct (post_api_students_saved _ _ _ _ _ _ Hp1 Hok1)
    as (ini1 & t & id & _ & _ & Hid & Hr1 & ->).
  destruct (post_api_students_saved _ _ _ _ _ _ Hp2 Hok2)
    as (ini2 & t2 & id2 & _ & Ht2 & Hid2 & Hr2 & _).
  simpl in Ht2. injection Ht2 as <-.
  exists id. split; [exact Hr1 |].
  assert (Hid' : id = top_rowid s_id t + 1).
  { unfold next_rowid in Hid.
    destruct (Z.ltb (top_rowid s_id t) max_rowid); congruence. }
  rewrite Hid' in Hid2.
  unfold next_rowid in Hid2.
  rewrite (top_rowid_after s_id t _ (student_row_id b1 ini1 _ _)) in Hid2.
  destruct (Z.ltb (top_rowid s_id t + 1) max_rowid); [| discriminate].
  injection Hid2 as <-. rewrite Hid'. exact Hr2.
Qed.

(** X12: the student handler keeps the primary key sound: if the ids of
    the table are pairwise distinct and none is above the counter, they
    still are after any request. *)
Theorem student_keys_stay_sound (f : fault) (random : Q) (b : body)
    (db : store) (t : table student_row) :
  students db = Some t ->
  student_keys_sound t ->
  exists t',
    students (snd (post_api_students f random b db)) = Some t'
    /\ student_keys_sound t'.
Proof.
  intros Ht [Hnd Hle]. unfold post_api_students.
  destruct (initials b) as [ini|e]; [| exists t; split; [exact Ht | split; assumption]].
  destruct (insert_students f [student_params b ini (randomColor random)]
              (students db)) as [err|t'] eqn:Hins;
    [exists t; split; [exact Ht | split; assumption] |].
  apply insert_one_inr in Hins.
  destruct Hins as [_ (t0 & id & Ht0 & Hid & _ & ->)].
  rewrite Ht in Ht0. injection Ht0 as <-.
  apply next_rowid_above in Hid. destruct Hid as (Habove & Hseq & _).
  eexists. split; [reflexivity |]. split; simpl.
  - rewrite map_app. simpl.
    apply NoDup_app; [exact Hnd | repeat constructor; simpl; tauto |].
    intros x Hx [<-|[]].
    apply in_map_iff in Hx. destruct Hx as (r & Hr & Hin).
    rewrite Forall_forall in Habove. specialize (Habove _ Hin). lia.
  - apply Forall_app. split.
    + eapply Forall_impl; [| exact Habove]. simpl. intros; lia.
    + constructor; [simpl; lia | constructor].
Qed.

(** *** The faculty handler *)

Lemma faculty_violation_none_iff (rs : list faculty_row) (r : faculty_row) :
  faculty_violation rs r = None <->
  is_null (f_first_name r) = false /\ is_null (f_last_name r) = false.
Proof.
  unfold faculty_violation, first_violation. simpl.
  destruct (is_null (f_first_name r)), (is_null (f_last_name r)); simpl;
    split; intros H; try discriminate H; try (split; reflexivity);
    destruct H; discriminate.
Qed.

(** X13: a faculty creation is answered 200 exactly when the storage
    layer is up, the table exists, an id is left and both names are
    bound to values; the rows already stored play no part, so the same
    request can be stored any number of times. *)
Theorem faculty_creation_succeeds_iff (f : fault) (b : body) (db : store) :
  (exists r db', post_api_faculty f b db = (Sent r, db') /\ status r = 200)
  <-> f = None
      /\ is_null (bind_param (first_name b)) = false
      /\ is_null (bind_param (last_name b)) = false
      /\ exists t, faculty db = Some t /\ next_rowid f_id t <> None.
Proof.
  unfold post_api_faculty. split.
  - intros (r & db' & Hpost & Hok).
    destruct (insert_faculty f [faculty_params b] (faculty db))
      as [err|t'] eqn:Hins.
    { injection Hpost as <- _. simpl in Hok. discriminate. }
    apply insert_one_inr in Hins.
    destruct Hins as [-> (t & id & Ht & Hid & Hv & _)].
    apply faculty_violation_none_iff in Hv. simpl in Hv.
    rewrite !text_affinity_null in Hv. destruct Hv as [H1 H2].
    repeat split; try assumption.
    exists t. split; [exact Ht | congruence].
  - intros (-> & H1 & H2 & t & Ht & Hid).
    destruct (next_rowid f_id t) as [id|] eqn:Hnext; [| congruence].
    rewrite Ht. unfold insert_faculty.
    rewrite (insert_one_accepted f_id faculty_affinity faculty_violation
               "faculty" _ t id Hnext).
    + eexists. eexists. split; reflexivity.
    + apply faculty_violation_none_iff. simpl.
      rewrite !text_affinity_null. split; assumption.
Qed.

Lemma post_api_faculty_saved (f : fault) (b : body) (db db' : store)
    (r : response) :
  post_api_faculty f b db = (Sent r, db') ->
  status r = 200 ->
  exists t id,
    faculty db = Some t /\ next_rowid f_id t = Some id
    /\ r = res_json (saved "Faculty" id)
    /\ db' = with_faculty
              (Some {| rows := rows t
                               ++ [faculty_affinity (faculty_params b id)];
                       seq := id |}) db.
Proof.
  unfold post_api_faculty.
  destruct (insert_faculty f [faculty_params b] (faculty db))
    as [err|t'] eqn:Hins.
  - intros [= <- <-]. simpl. discriminate.
  - intros [= <- <-] _.
    apply insert_one_inr in Hins.
    destruct Hins as [_ (t & id & Ht & Hid & _ & ->)].
    exists t, id. repeat split; assumption.
Qed.

(** X14: a faculty creation that goes through adds one row after those
    stored and touches no other table; the row carries the id of the
    answer and, as [avatar_url], the UTF-8 text of the avatar address
    with the two names put in as the template prints them, unescaped
    (a number of the 32-bit range as its decimal digits). *)
Theorem faculty_avatar_url (f : fault) (b : body) (db db' : store)
    (r : response) :
  post_api_faculty f b db = (Sent r, db') ->
  status r = 200 ->
  exists t row,
    faculty db = Some t
    /\ rows_of (faculty db') = (rows t ++ [row])%list
    /\ r = res_json (saved "Faculty" (f_id row))
    /\ f_avatar_url row
       = SText (Js.utf8 (Js.lit "https://ui-avatars.com/api/?name="
                         ++ Js.to_string (first_name b) ++ Js.lit "+"
                         ++ Js.to_string (last_name b)
                         ++ Js.lit "&background=random")%list)
    /\ f_first_name row = text_affinity (bind_param (first_name b))
    /\ f_last_name row = text_affinity (bind_param (last_name b))
    /\ departments db' = departments db /\ students db' = students db
    /\ courses db' = courses db /\ schedule db' = schedule db.
Proof.
  intros Hpost Hok.
  destruct (post_api_faculty_saved _ _ _ _ _ Hpost Hok)
    as (t & id & Ht & _ & Hr & ->).
  exists t, (faculty_affinity (faculty_params b id)).
  repeat split; assumption.
Qed.

(** *** The counters across requests *)

Lemma find_rejected_none (ps : list (result Z)) :
  Forall (fun p => rejected p = false) ps -> first_rejected ps = None.
Proof.
  unfold first_rejected.
  induction 1 as [|p ps Hp _ IH]; simpl; [reflexivity |].
  rewrite Hp. exact IH.
Qed.

Lemma promise_all_of_fulfilled (order : list nat) (ns : list Z) :
  promise_all order (map inr ns) = inr (map JNumber ns).
Proof.
  unfold promise_all. rewrite find_rejected_none.
  - rewrite map_map. reflexivity.
  - apply Forall_app. split.
    + apply Forall_forall. intros p Hp.
      apply in_map_iff in Hp. destruct Hp as (i & <- & _).
      pose proof (map_nth (@inr sqlerror Z) ns 0 i) as Hnth.
      unfold result. rewrite Hnth. reflexivity.
    + apply Forall_forall. intros p Hp.
      apply in_map_iff in Hp. destruct Hp as (n & <- & _). reflexivity.
Qed.

(** Over three tables that exist, with the storage layer up, the stats
    handler answers with the three counts. *)
Lemma get_api_stats_healthy (order : list nat) (db : store)
    (ss : table student_row) (cs : table course_row) (fs : table faculty_row) :
  students db = Some ss -> courses db = Some cs -> faculty db = Some fs ->
  get_api_stats None None None order db
  = Sent (res_json
            (stats_body (Z.of_nat (List.length (rows ss)))
                        (Z.of_nat (List.length (filter isActive (rows cs))))
                        (Z.of_nat (List.length (rows fs))))).
Proof.
  intros Hs Hc Hf. unfold get_api_stats, stats_queries, select_count.
  rewrite Hs, Hc, Hf, !filter_all_rows.
  change [inr (Z.of_nat (List.length (rows ss)));
          inr (Z.of_nat (List.length (filter isActive (rows cs))));
          inr (Z.of_nat (List.length (rows fs)))]
    with (map (@inr sqlerror Z)
              [Z.of_nat (List.length (rows ss));
               Z.of_nat (List.length (filter isActive (rows cs)));
               Z.of_nat (List.length (rows fs))]).
  rewrite promise_all_of_fulfilled. reflexivity.
Qed.

Lemma get_api_stats_ok_inv (f1 f2 f3 : fault) (order : list nat)
    (db : store) (r : response) :
  get_api_stats f1 f2 f3 order db = Sent r -> status r = 200 ->
  f1 = None /\ f2 = None /\ f3 = None
  /\ students db <> None /\ courses db <> None /\ faculty db <> None.
Proof.
  intros Hr Hok. unfold get_api_stats in Hr.
  destruct (promise_all order (stats_queries f1 f2 f3 db))
    as [e|vs] eqn:Hall.
  { injection Hr as <-. simpl in Hok. discriminate. }
  apply promise_all_fulfilled in Hall. destruct Hall as [_ Hnone].
  unfold stats_queries in Hnone.
  destruct (select_count "students" all_rows f1 (students db))
    as [e1|n1] eqn:H1; [exfalso; apply (Hnone e1); simpl; auto |].
  destruct (select_count "courses" isActive f2 (courses db))
    as [e2|n2] eqn:H2; [exfalso; apply (Hnone e2); simpl; auto |].
  destruct (select_count "faculty" all_rows f3 (faculty db))
    as [e3|n3] eqn:H3; [exfalso; apply (Hnone e3); simpl; auto |].
  apply select_count_inr in H1, H2, H3.
  destruct H1 as [-> (ss & -> & _)].
  destruct H2 as [-> (cs & -> & _)].
  destruct H3 as [-> (fs & -> & _)].
  repeat split; discriminate.
Qed.

(** X15: GET /api/stats answers 200 exactly when none of its three
    queries is hit by a storage failure and the three tables it counts
    exist; otherwise it answers 500. *)
Theorem stats_succeeds_iff (f1 f2 f3 : fault) (order : list nat) (db : store) :
  ((exists r, get_api_stats f1 f2 f3 order db = Sent r /\ status r = 200)
   <-> f1 = None /\ f2 = None /\ f3 = None
       /\ students db <> None /\ courses db <> None /\ faculty db <> None)
  /\ exists r, get_api_stats f1 f2 f3 order db = Sent r
               /\ (status r = 200 \/ status r = 500).
Proof.
  split.
  - split.
    + intros (r & Hr & Hok). eapply get_api_stats_ok_inv; eassumption.
    + intros (-> & -> & -> & Hs & Hc & Hf).
      destruct (students db) as [ss|] eqn:Es; [| congruence].
      destruct (courses db) as [cs|] eqn:Ec; [| congruence].
      destruct (faculty db) as [fs|] eqn:Ef; [| congruence].
      eexists. split;
        [apply (get_api_stats_healthy order db ss cs fs Es Ec Ef) | reflexivity].
  - unfold get_api_stats.
    destruct (promise_all order (stats_queries f1 f2 f3 db));
      eexists; (split; [reflexivity |]); simpl; auto.
Qed.

(** X16: the counters follow the creations: after a student creation
    that went through, [total_students] is one more and the two other
    counters are what they were; after a faculty creation that went
    through, [faculty_staff] is one more and the two others are what
    they were. *)
Theorem creations_move_counters (order order' : list nat) (db db' : store)
    (r : response) (n1 n2 n3 : Z) :
  get_api_stats None None None order db = Sent (res_json (stats_body n1 n2 n3)) ->
  status r = 200 ->
  (forall f random b,
     post_api_students f random b db = (Sent r, db') ->
     get_api_stats None None None order' db'
     = Sent (res_json (stats_body (n1 + 1) n2 n3)))
  /\ (forall f b,
        post_api_faculty f b db = (Sent r, db') ->
        get_api_stats None None None order' db'
        = Sent (res_json (stats_body n1 n2 (n3 + 1)))).
Proof.
  intros Hstats Hok.
  assert (Htables : exists ss cs fs,
             students db = Some ss /\ courses db = Some cs
             /\ faculty db = Some fs
             /\ n1 = Z.of_nat (List.length (rows ss))
             /\ n2 = Z.of_nat (List.length (filter isActive (rows cs)))
             /\ n3 = Z.of_nat (List.length (rows fs))).
  { destruct (get_api_stats_ok_inv _ _ _ _ _ _ Hstats eq_refl)
      as (_ & _ & _ & Hs & Hc & Hf).
    destruct (students db) as [ss|] eqn:Es; [| congruence].
    destruct (courses db) as [cs|] eqn:Ec; [| congruence].
    destruct (faculty db) as [fs|] eqn:Ef; [| congruence].
    rewrite (get_api_stats_healthy order db ss cs fs Es Ec Ef) in Hstats.
    injection Hstats as <- <- <-.
    exists ss, cs, fs. repeat split. }
  destruct Htables as (ss & cs & fs & Hs & Hc & Hf & -> & -> & ->).
  split.
  - intros f random b Hpost.
    destruct (post_api_students_saved _ _ _ _ _ _ Hpost Hok)
      as (ini & t & id & _ & Ht & _ & _ & ->).
    rewrite Hs in Ht. injection Ht as <-.
    erewrite get_api_stats_healthy; [| reflexivity | exact Hc | exact Hf].
    simpl rows. rewrite length_app. simpl List.length.
    rewrite Nat2Z.inj_add. reflexivity.
  - intros f b Hpost.
    destruct (post_api_faculty_saved _ _ _ _ _ Hpost Hok)
      as (t & id & Ht & _ & _ & ->).
    rewrite Hf in Ht. injection Ht as <-.
    erewrite get_api_stats_healthy; [| exact Hs | exact Hc | reflexivity].
    simpl rows. rewrite length_app. simpl List.length.
    rewrite Nat2Z.inj_add. reflexivity.
Qed.

(** *** The view, department by department *)

Lemma sql_eq_int (v : sqlval) (k : Z) :
  sql_eq v (SInt k) = true <-> v = SInt k.
Proof.
  destruct v as [|z|t]; simpl; split; intros H; try discriminate H.
  - apply Z.eqb_eq in H. congruence.
  - injection H as ->. apply Z.eqb_refl.
Qed.

Lemma NoDup_map_inj {A B : Type} (g : A -> B) (l : list A) (a b : A) :
  NoDup (map g l) -> In a l -> In b l -> g a = g b -> a = b.
Proof.
  induction l as [|x l IH]; simpl; intros Hnd Ha Hb Hg; [destruct Ha |].
  inversion Hnd as [|? ? Hnotin Hnd']; subst.
  destruct Ha as [->|Ha], Hb as [->|Hb].
  - reflexivity.
  - exfalso. apply Hnotin. rewrite Hg. apply in_map. exact Hb.
  - exfalso. apply Hnotin. rewrite <- Hg. apply in_map. exact Ha.
  - apply IH; assumption.
Qed.

(** The rows the join gives one student. *)
Lemma left_join_rows_of (ss : list student_row) (ds : list department_row)
    (s : student_row) (n : sqlval) :
  In (s, n) (left_join ss ds) ->
  (n = SNull
   /\ forall d, In d ds -> s_department_id s <> SInt (d_id d))
  \/ exists d, In d ds /\ s_department_id s = SInt (d_id d) /\ n = d_name d.
Proof.
  unfold left_join. rewrite in_flat_map. intros (s' & _ & Hj).
  destruct (filter (fun d => sql_eq (s_department_id s') (SInt (d_id d))) ds)
    as [|d0 ms] eqn:Hm.
  - destruct Hj as [[= -> ->]|[]]. left. split; [reflexivity |].
    intros d Hd Heq.
    assert (Hin : In d (filter (fun d => sql_eq (s_department_id s)
                                            (SInt (d_id d))) ds)).
    { apply filter_In. split; [exact Hd | apply sql_eq_int; exact Heq]. }
    rewrite Hm in Hin. destruct Hin.
  - change (In (s, n) (map (fun d => (s', d_name d)) (d0 :: ms))) in Hj.
    apply in_map_iff in Hj. destruct Hj as (d & [= -> <-] & Hd).
    rewrite <- Hm in Hd. apply filter_In in Hd. destruct Hd as [Hd Heq].
    right. exists d. split; [exact Hd |].
    split; [apply sql_eq_int; exact Heq | reflexivity].
Qed.

Lemma department_name_of_found (ds : list department_row)
    (d : department_row) :
  NoDup (map d_id ds) -> In d ds ->
  department_name_of ds (SInt (d_id d)) = d_name d.
Proof.
  intros Hnd Hd. unfold department_name_of.
  destruct (find (fun d0 => sql_eq (SInt (d_id d)) (SInt (d_id d0))) ds)
    as [d'|] eqn:Hfind.
  - apply find_some in Hfind. destruct Hfind as [Hd' Heq].
    simpl in Heq. apply Z.eqb_eq in Heq.
    rewrite (NoDup_map_inj d_id ds d d' Hnd Hd Hd' Heq). reflexivity.
  - exfalso. pose proof (find_none _ _ Hfind d Hd) as H.
    simpl in H. rewrite Z.eqb_refl in H. discriminate.
Qed.

Lemma department_name_of_missing (ds : list department_row) (v : sqlval) :
  (forall d, In d ds -> v <> SInt (d_id d)) ->
  department_name_of ds v = SNull.
Proof.
  intros Hnone. unfold department_name_of.
  destruct (find (fun d => sql_eq v (SInt (d_id d))) ds) as [d|] eqn:Hfind;
    [| reflexivity].
  apply find_some in Hfind. destruct Hfind as [Hd Heq].
  apply sql_eq_int in Heq. destruct (Hnone d Hd Heq).
Qed.

(** X17: every row of the view names the department its student refers
    to: the name of the department whose id is the [department_id], and
    null when no department has that id (a dangling reference keeps the
    row, as a missing one does). *)
Theorem recent_department_names (f : fault) (db : store) (rs : list joined)
    (ds : table department_row) (s : student_row) (n : sqlval) :
  select_recent f db = inr rs ->
  departments db = Some ds ->
  NoDup (map d_id (rows ds)) ->
  In (s, n) rs ->
  n = department_name_of (rows ds) (s_department_id s)
  /\ (forall d, In d (rows ds) -> s_department_id s = SInt (d_id d) ->
      n = d_name d)
  /\ ((forall d, In d (rows ds) -> s_department_id s <> SInt (d_id d)) ->
      n = SNull).
Proof.
  intros Hsel Hds Hnd Hin.
  apply select_recent_inr in Hsel.
  destruct Hsel as [_ (ss & ds' & _ & Hds' & ->)].
  rewrite Hds in Hds'. injection Hds' as <-.
  apply firstn_incl in Hin.
  apply (Permutation_in _ (order_by_id_desc_perm _)) in Hin.
  apply left_join_rows_of in Hin.
  destruct Hin as [[-> Hnone]|(d & Hd & Heq & ->)].
  - split; [symmetry; apply department_name_of_missing; exact Hnone |].
    split; [| reflexivity].
    intros d Hd Heq. destruct (Hnone d Hd Heq).
  - split; [rewrite Heq; symmetry; apply department_name_of_found; assumption |].
    split.
    + intros d' Hd' Heq'. rewrite Heq in Heq'. injection Heq' as Hid.
      rewrite (NoDup_map_inj d_id (rows ds) d d' Hnd Hd Hd' Hid). reflexivity.
    + intros Hnone. destruct (Hnone d Hd Heq).
Qed.

(** X18: while the table holds at most five students, the view shows
    every one of them exactly once. *)
Theorem recent_shows_all_when_few (db : store) (ss : table student_row)
    (ds : table department_row) :
  students db = Some ss ->
  departments db = Some ds ->
  NoDup (map d_id (rows ds)) ->
  (List.length (rows ss) <= limit)%nat ->
  exists rs,
    select_recent None db = inr rs
    /\ Permutation (map fst rs) (rows ss)
    /\ List.length rs = List.length (rows ss).
Proof.
  intros Hss Hds Hnd Hfew.
  unfold select_recent. rewrite Hss, Hds.
  set (L := left_join (rows ss) (rows ds)).
  pose proof (order_by_id_desc_perm L) as Hperm.
  assert (HL : map fst L = rows ss) by (apply left_join_one_each; exact Hnd).
  assert (Hlen : List.length (order_by_id_desc L) = List.length (rows ss)).
  { rewrite (Permutation_length Hperm), <- HL, length_map. reflexivity. }
  rewrite firstn_all2 by (rewrite Hlen; exact Hfew).
  eexists. split; [reflexivity |]. split; [| exact Hlen].
  rewrite <- HL. apply Permutation_map. exact Hperm.
Qed.

(** [decimal] and the reading of decimal text undo each other. *)
Lemma int_of_decimal (z : Z) :
  NilZero.int_of_string (decimal z) = Some (Z.to_int z).
Proof.
  unfold decimal. apply NilZero.isi.
  - destruct z; simpl; try discriminate.
    intros [= H]. apply (DecimalPos.Unsigned.to_uint_nonnil _ H).
  - destruct z; simpl; try discriminate.
    intros [= H]. apply (DecimalPos.Unsigned.to_uint_nonnil _ H).
Qed.

(** X19: a [department_id] or [class_year] sent as the decimal text of
    an integer (as a form sends it) is stored as that integer: the row a
    creation stores is the one the number itself would give, so the
    text joins to its department like the number. *)
Theorem decimal_text_stored_as_integer (z : Z) (b : body) (ini color : Js.value)
    (id : Z) :
  min_rowid <= z <= max_rowid ->
  department_id b = Js.Str (decimal z) ->
  integer_affinity (bind_param (Js.Str (decimal z))) = SInt z
  /\ s_department_id (student_affinity (student_params b ini color id))
     = SInt z
  /\ f_department_id (faculty_affinity (faculty_params b id)) = SInt z.
Proof.
  intros [Hlo Hhi] Hdep.
  assert (H : integer_affinity (SText (decimal z)) = SInt z).
  { unfold integer_affinity. rewrite int_of_decimal, DecimalZ.of_to.
    destruct (Z.leb_spec min_rowid z); [| lia].
    destruct (Z.leb_spec z max_rowid); [reflexivity | lia]. }
  assert (Hb : bind_param (Js.Str (decimal z)) = SText (decimal z)).
  { unfold bind_param. rewrite utf8_decimal. reflexivity. }
  cbn [student_affinity student_params s_department_id
       faculty_affinity faculty_params f_department_id].
  rewrite Hdep, Hb. auto.
Qed.

(** *** Start-up, more closely *)

Lemma extends_refl (db : store) : extends db db.
Proof.
  unfold extends. repeat split; exists []; rewrite app_nil_r; reflexivity.
Qed.

Lemma same_rows_extends (db db' : store) : same_rows db db' -> extends db db'.
Proof.
  unfold same_rows, extends. intros (H1 & H2 & H3 & H4 & H5).
  rewrite <- H1, <- H2, <- H3, <- H4, <- H5.
  repeat split; exists []; rewrite app_nil_r; reflexivity.
Qed.

Lemma extends_trans (a b c : store) : extends a b -> extends b c -> extends a c.
Proof.
  unfold extends.
  intros ((m1 & H1) & (m2 & H2) & (m3 & H3) & (m4 & H4) & (m5 & H5))
         ((n1 & K1) & (n2 & K2) & (n3 & K3) & (n4 & K4) & (n5 & K5)).
  rewrite K1, K2, K3, K4, K5, H1, H2, H3, H4, H5.
  repeat split; eexists; rewrite <- app_assoc; reflexivity.
Qed.

Section InsertExtends.
Context {R : Type}.
Variable key : R -> Z.
Variable affinity : R -> R.
Variable violation : list R -> R -> option sqlerror.

(** An INSERT that goes through keeps the rows stored and adds one row
    per row of its [VALUES] list after them. *)
Lemma insert_rows_inr (mks : list (Z -> R)) (t t' : table R) :
  insert_rows key affinity violation mks t = inr t' ->
  exists more,
    rows t' = (rows t ++ more)%list /\ List.length more = List.length mks.
Proof.
  revert t. induction mks as [|mk rest IH]; simpl; intros t H.
  - injection H as <-. exists []. rewrite app_nil_r. split; reflexivity.
  - unfold insert_row in H.
    destruct (next_rowid key t) as [id|]; [| discriminate].
    destruct (violation (rows t) (affinity (mk id))); [discriminate |].
    apply IH in H. destruct H as (more & Hrows & Hlen). simpl in Hrows.
    exists (affinity (mk id) :: more). split.
    + rewrite Hrows, <- app_assoc. reflexivity.
    + simpl. rewrite Hlen. reflexivity.
Qed.

(** Run without a callback, an INSERT leaves a table that exists in
    existence, its rows in place. *)
Lemma run_unhandled_extends (name : string) (f : fault)
    (mks : list (Z -> R)) (ot : option (table R))
    (ot' : option (table R)) (e : option sqlerror) :
  run_unhandled (insert_into key affinity violation name f mks ot) ot
  = (ot', e) ->
  (exists more, rows_of ot' = (rows_of ot ++ more)%list
                /\ (e = None -> List.length more = List.length mks))
  /\ (ot <> None -> ot' <> None).
Proof.
  unfold run_unhandled.
  destruct (insert_into key affinity violation name f mks ot)
    as [err|t'] eqn:Hins; intros [= <- <-].
  - split; [| auto]. exists []. rewrite app_nil_r.
    split; [reflexivity | discriminate].
  - split; [| discriminate].
    unfold insert_into in Hins.
    destruct f; [discriminate |]. destruct ot as [t|]; [| discriminate].
    apply insert_rows_inr in Hins. destruct Hins as (more & Hrows & Hlen).
    exists more. split; [exact Hrows | intros _; exact Hlen].
Qed.
End InsertExtends.

(** The four INSERT of the seed, table by table. *)
Lemma seed_tables (io : nat -> fault) (db : store) :
  exists d fa s c e1 e2 e3 e4,
    run_unhandled (insert_departments (io 6%nat) seed_departments (departments db))
                  (departments db) = (d, e1)
    /\ run_unhandled (insert_faculty (io 7%nat) seed_faculty (faculty db))
                     (faculty db) = (fa, e2)
    /\ run_unhandled (insert_students (io 8%nat) seed_students (students db))
                     (students db) = (s, e3)
    /\ run_unhandled (insert_courses (io 9%nat) seed_courses (courses db))
                     (courses db) = (c, e4)
    /\ seed io db
       = match first_error [e1; e2; e3; e4] with
         | Some e =>
             Exited {| departments := d; faculty := fa; students := s;
                       courses := c; schedule := schedule db |} (message e)
         | None =>
             Running {| departments := d; faculty := fa; students := s;
                        courses := c; schedule := schedule db |}
         end.
Proof.
  unfold seed.
  destruct (run_unhandled (insert_departments _ _ _) _) as [d e1].
  destruct (run_unhandled (insert_faculty _ _ _) _) as [fa e2].
  destruct (run_unhandled (insert_students _ _ _) _) as [s e3].
  destruct (run_unhandled (insert_courses _ _ _) _) as [c e4].
  exists d, fa, s, c, e1, e2, e3, e4. repeat split.
Qed.

Lemma seed_extends (io : nat -> fault) (db : store) :
  extends db (store_of (seed io db))
  /\ (tables_exist db -> tables_exist (store_of (seed io db))).
Proof.
  destruct (seed_tables io db)
    as (d & fa & s & c & e1 & e2 & e3 & e4 & H1 & H2 & H3 & H4 & ->).
  apply run_unhandled_extends in H1, H2, H3, H4.
  destruct H1 as [(m1 & K1 & _) T1], H2 as [(m2 & K2 & _) T2],
    H3 as [(m3 & K3 & _) T3], H4 as [(m4 & K4 & _) T4].
  assert (Hext : extends db {| departments := d; faculty := fa; students := s;
                               courses := c; schedule := schedule db |}).
  { unfold extends. simpl. repeat split; try (eexists; eassumption).
    exists []. rewrite app_nil_r. reflexivity. }
  assert (Hex : tables_exist db ->
                tables_exist {| departments := d; faculty := fa; students := s;
                                courses := c; schedule := schedule db |}).
  { unfold tables_exist. simpl. intros (A & B & C & D & E).
    repeat split; auto. }
  destruct (first_error [e1; e2; e3; e4]); simpl; split; assumption.
Qed.

Lemma tables_exist_create_all (db : store) : tables_exist (create_all db).
Proof.
  unfold tables_exist, create_all. simpl.
  destruct (departments db), (faculty db), (students db), (courses db),
    (schedule db); simpl; repeat split; discriminate.
Qed.

Lemma same_rows_created (db : store) : same_rows db (create_all db).
Proof.
  unfold same_rows, create_all. simpl.
  rewrite !rows_of_create. repeat split.
Qed.

Lemma seed_if_empty_extends (io : nat -> fault) (db : store) :
  extends db (store_of (seed_if_empty io db))
  /\ (tables_exist db -> tables_exist (store_of (seed_if_empty io db))).
Proof.
  unfold seed_if_empty.
  destruct (select_count "departments" all_rows (io 5%nat) (departments db))
    as [e|n].
  - simpl. split; [apply extends_refl | auto].
  - destruct (Z.eqb n 0).
    + apply seed_extends.
    + simpl. split; [apply extends_refl | auto].
Qed.

(** When the five [CREATE TABLE] go through, start-up is the seeding
    test over the store with its five tables. *)
Lemma initializeDatabase_created (io : nat -> fault) (db : store) :
  (forall k, (k < 5)%nat -> io k = None) ->
  initializeDatabase io db = seed_if_empty io (create_all db).
Proof.
  intros Hio. unfold initializeDatabase, create.
  rewrite (Hio 0%nat), (Hio 1%nat), (Hio 2%nat), (Hio 3%nat), (Hio 4%nat)
    by lia.
  destruct db; reflexivity.
Qed.

(** Start-up either ends on a failing [CREATE TABLE], having written no
    row, or reaches the seeding test over the five tables. *)
Lemma initializeDatabase_cases (io : nat -> fault) (db : store) :
  (exists db' e, initializeDatabase io db = Exited db' e /\ same_rows db db')
  \/ initializeDatabase io db = seed_if_empty io (create_all db).
Proof.
  destruct (io 0%nat) as [m|] eqn:H0;
    [left; destruct (initializeDatabase_create_fails io db 0)
             as (db' & e & _ & He & _ & _ & Hs);
     [lia | congruence | exists db', e; split; assumption] |].
  destruct (io 1%nat) as [m|] eqn:H1;
    [left; destruct (initializeDatabase_create_fails io db 1)
             as (db' & e & _ & He & _ & _ & Hs);
     [lia | congruence | exists db', e; split; assumption] |].
  destruct (io 2%nat) as [m|] eqn:H2;
    [left; destruct (initializeDatabase_create_fails io db 2)
             as (db' & e & _ & He & _ & _ & Hs);
     [lia | congruence | exists db', e; split; assumption] |].
  destruct (io 3%nat) as [m|] eqn:H3;
    [left; destruct (initializeDatabase_create_fails io db 3)
             as (db' & e & _ & He & _ & _ & Hs);
     [lia | congruence | exists db', e; split; assumption] |].
  destruct (io 4%nat) as [m|] eqn:H4;
    [left; destruct (initializeDatabase_create_fails io db 4)
             as (db' & e & _ & He & _ & _ & Hs);
     [lia | congruence | exists db', e; split; assumption] |].
  right. apply initializeDatabase_created.
  intros k Hk. destruct k as [|[|[|[|[|k]]]]]; try assumption. lia.
Qed.

(** X20: start-up never removes or rewrites a row: whatever the store it
    finds and whatever fails on the way, every table comes out with the
    rows it had, in their order, and the seed rows, if any, after
    them. *)
Theorem startup_keeps_rows (io : nat -> fault) (db : store) :
  extends db (store_of (initializeDatabase io db)).
Proof.
  destruct (initializeDatabase_cases io db) as [(db' & e & -> & Hs)| ->].
  - simpl. apply same_rows_extends. exact Hs.
  - eapply extends_trans.
    + apply same_rows_extends. apply same_rows_created.
    + apply seed_if_empty_extends.
Qed.

Lemma get_api_enrollments_recent_healthy (db : store) :
  students db <> None -> departments db <> None ->
  exists rs,
    get_api_enrollments_recent None db
    = Sent (res_json (JObject [("data", JArray (map row_json rs))])).
Proof.
  intros Hs Hd. unfold get_api_enrollments_recent, select_recent.
  destruct (students db); [| congruence].
  destruct (departments db); [| congruence].
  eexists. reflexivity.
Qed.

(** X21: when start-up leaves the process running, the five tables
    exist, so that, with the storage layer up, GET /api/stats and GET
    /api/enrollments/recent answer 200. *)
Theorem running_after_startup_serves (io : nat -> fault) (db db' : store)
    (order : list nat) :
  initializeDatabase io db = Running db' ->
  tables_exist db'
  /\ (exists r, get_api_stats None None None order db' = Sent r
                /\ status r = 200)
  /\ (exists r, get_api_enrollments_recent None db' = Sent r
                /\ status r = 200).
Proof.
  intros Hrun.
  assert (Hex : tables_exist db').
  { destruct (initializeDatabase_cases io db) as [(d & e & He & _)|Hc].
    - rewrite He in Hrun. discriminate.
    - rewrite Hc in Hrun.
      pose proof (proj2 (seed_if_empty_extends io (create_all db))
                        (tables_exist_create_all db)) as H.
      rewrite Hrun in H. exact H. }
  split; [exact Hex |].
  destruct Hex as (Hd & Hf & Hs & Hc & _).
  split.
  - destruct (students db') as [ss|] eqn:Es; [| congruence].
    destruct (courses db') as [cs|] eqn:Ec; [| congruence].
    destruct (faculty db') as [fs|] eqn:Ef; [| congruence].
    eexists. split;
      [apply (get_api_stats_healthy order db' ss cs fs Es Ec Ef) | reflexivity].
  - destruct (get_api_enrollments_recent_healthy db' Hs Hd) as (rs & ->).
    eexists. split; reflexivity.
Qed.

(** Over five tables that exist, with a department stored, start-up
    leaves the store exactly as it is, whatever fails on the way. *)
Lemma startup_fixed_point (io : nat -> fault) (db : store) :
  tables_exist db ->
  rows_of (departments db) <> [] ->
  store_of (initializeDatabase io db) = db
  /\ ((forall k, (k < 5)%nat -> io k = None) ->
      initializeDatabase io db = Running db).
Proof.
  intros (Hd & Hf & Hs & Hc & Hh) Hne.
  destruct db as [[d|] [fa|] [s|] [c|] [h|]]; simpl in *; try congruence.
  assert (Hcreated : create_all (Build_store (Some d) (Some fa) (Some s)
                                             (Some c) (Some h))
                     = Build_store (Some d) (Some fa) (Some s) (Some c) (Some h))
    by reflexivity.
  split.
  - unfold initializeDatabase, create.
    destruct (io 0%nat); [reflexivity |].
    destruct (io 1%nat); [reflexivity |].
    destruct (io 2%nat); [reflexivity |].
    destruct (io 3%nat); [reflexivity |].
    destruct (io 4%nat); [reflexivity |].
    simpl. rewrite seed_if_empty_skips by exact Hne. reflexivity.
  - intros Hio. rewrite initializeDatabase_created by exact Hio.
    rewrite Hcreated. apply seed_if_empty_skips. exact Hne.
Qed.

Lemma first_error_none (es : list (option sqlerror)) :
  first_error es = None -> Forall (fun e => e = None) es.
Proof.
  unfold first_error. induction es as [|[e|] es IH]; simpl.
  - constructor.
  - discriminate.
  - intros H. constructor; [reflexivity | exact (IH H)].
Qed.

(** A seeding that leaves the process running has stored every row of
    the seed. *)
Lemma seed_running (io : nat -> fault) (db db' : store) :
  seed io db = Running db' ->
  (exists m, rows_of (departments db') = (rows_of (departments db) ++ m)%list
             /\ List.length m = 4%nat)
  /\ (exists m, rows_of (faculty db') = (rows_of (faculty db) ++ m)%list
                /\ List.length m = 2%nat)
  /\ (exists m, rows_of (students db') = (rows_of (students db) ++ m)%list
                /\ List.length m = 1%nat)
  /\ (exists m, rows_of (courses db') = (rows_of (courses db) ++ m)%list
                /\ List.length m = 1%nat)
  /\ schedule db' = schedule db.
Proof.
  destruct (seed_tables io db)
    as (d & fa & s & c & e1 & e2 & e3 & e4 & H1 & H2 & H3 & H4 & ->).
  destruct (first_error [e1; e2; e3; e4]) eqn:Hfirst; [discriminate |].
  intros [= <-]. simpl.
  apply first_error_none in Hfirst.
  inversion Hfirst as [|? ? E1 Hfirst1]; subst.
  inversion Hfirst1 as [|? ? E2 Hfirst2]; subst.
  inversion Hfirst2 as [|? ? E3 Hfirst3]; subst.
  inversion Hfirst3 as [|? ? E4 _]; subst.
  apply run_unhandled_extends in H1, H2, H3, H4.
  destruct H1 as [(m1 & K1 & L1) _], H2 as [(m2 & K2 & L2) _],
    H3 as [(m3 & K3 & L3) _], H4 as [(m4 & K4 & L4) _].
  repeat split.
  - exists m1. split; [exact K1 | exact (L1 eq_refl)].
  - exists m2. split; [exact K2 | exact (L2 eq_refl)].
  - exists m3. split; [exact K3 | exact (L3 eq_refl)].
  - exists m4. split; [exact K4 | exact (L4 eq_refl)].
Qed.

(** A start-up with the storage layer up that leaves the process
    running leaves a department stored. *)
Lemma healthy_startup_has_departments (db db' : store) :
  initializeDatabase healthy db = Running db' ->
  rows_of (departments db') <> [].
Proof.
  rewrite initializeDatabase_healthy by reflexivity.
  unfold seed_if_empty, select_count, healthy.
  destruct (create_if_not_exists_some (departments db)) as (t & Hc & _).
  assert (Ht : departments (create_all db) = Some t) by exact Hc.
  rewrite Ht, filter_all_rows.
  destruct (Z.eqb_spec (Z.of_nat (List.length (rows t))) 0) as [Hz|Hnz].
  - intros Hseed. apply seed_running in Hseed.
    destruct Hseed as ((m & Hm & Hlen) & _).
    rewrite Hm. destruct m; [discriminate Hlen |].
    intros H. apply app_eq_nil in H. destruct H as [_ H]. discriminate H.
  - intros [= <-]. rewrite Ht. simpl.
    intros H. rewrite H in Hnz. apply Hnz. reflexivity.
Qed.

(** X22: when a start-up with the storage layer up leaves the process
    running, the store it leaves behind is left as it is by every later
    start-up, whatever fails in that one, and a later start-up whose
    five [CREATE TABLE] go through keeps the process running over it.
    (A start-up that ends the process, for want of an id say, can leave
    [departments] empty, and the next one then seeds again.) *)
Theorem restart_changes_nothing (db db' : store) (io : nat -> fault) :
  initializeDatabase healthy db = Running db' ->
  store_of (initializeDatabase io db') = db'
  /\ ((forall k, (k < 5)%nat -> io k = None) ->
      initializeDatabase io db' = Running db').
Proof.
  intros Hrun. apply startup_fixed_point.
  - destruct (initializeDatabase_cases healthy db) as [(d & e & He & _)|Hc].
    + rewrite He in Hrun. discriminate.
    + rewrite Hc in Hrun.
      pose proof (proj2 (seed_if_empty_extends healthy (create_all db))
                        (tables_exist_create_all db)) as H.
      rewrite Hrun in H. exact H.
  - eapply healthy_startup_has_departments. exact Hrun.
Qed.

(** X23: an error of the count of departments is swallowed: the
    callback does not seed and reports nothing, and the process keeps
    running over the five tables with the rows they had, an empty store
    included. *)
Theorem count_failure_skips_seed (io : nat -> fault) (db : store)
    (m : string) :
  (forall k, (k < 5)%nat -> io k = None) ->
  io 5%nat = Some m ->
  initializeDatabase io db = Running (create_all db)
  /\ same_rows db (create_all db)
  /\ tables_exist (create_all db).
Proof.
  intros Hio H5. rewrite initializeDatabase_created by exact Hio.
  unfold seed_if_empty, select_count. rewrite H5.
  split; [reflexivity |].
  split; [apply same_rows_created | apply tables_exist_create_all].
Qed.

(** X24: seeding is all or exit: over an empty [departments] table, once
    the count went through, either the process ends on the error of a
    seed INSERT, or it keeps running with every row of the seed stored:
    four departments, two faculty, one student, one course more. *)
Theorem seeding_all_or_exit (io : nat -> fault) (db : store) :
  rows_of (departments db) = [] ->
  (forall k, (k < 6)%nat -> io k = None) ->
  (exists db' e, initializeDatabase io db = Exited db' e)
  \/ exists db',
       initializeDatabase io db = Running db'
       /\ List.length (rows_of (departments db')) = 4%nat
       /\ List.length (rows_of (faculty db'))
          = (List.length (rows_of (faculty db)) + 2)%nat
       /\ List.length (rows_of (students db'))
          = (List.length (rows_of (students db)) + 1)%nat
       /\ List.length (rows_of (courses db'))
          = (List.length (rows_of (courses db)) + 1)%nat.
Proof.
  intros Hempty Hio.
  rewrite initializeDatabase_created by (intros k Hk; apply Hio; lia).
  unfold seed_if_empty, select_count. rewrite (Hio 5%nat) by lia.
  destruct (create_if_not_exists_some (departments db)) as (td & Hd & Hrd & _).
  assert (Hd' : departments (create_all db) = Some td) by exact Hd.
  rewrite Hd', filter_all_rows, Hrd, Hempty. simpl Z.eqb.
  destruct (seed io (create_all db)) as [db'|db' e] eqn:Hseed;
    [| left; exists db', e; reflexivity].
  right. exists db'. split; [reflexivity |].
  apply seed_running in Hseed.
  destruct Hseed as ((m1 & K1 & L1) & (m2 & K2 & L2) & (m3 & K3 & L3)
                     & (m4 & K4 & L4) & _).
  pose proof (same_rows_created db) as (S1 & S2 & S3 & S4 & _).
  rewrite K1, K2, K3, K4, <- S1, <- S2, <- S3, <- S4, Hempty.
  rewrite !length_app, L1, L2, L3, L4. repeat split.
Qed.

(** What a start-up that seeds stores in [departments] and [students]. *)
Lemma startup_seeds (io : nat -> fault) (db : store) :
  rows_of (departments db) = [] ->
  (forall k, io k = None) ->
  seed_keys_free db = true ->
  seed_ids_left db = true ->
  exists db',
    initializeDatabase io db = Running db'
    /\ rows_of (departments db')
       = numbered (top_of d_id (departments db) + 1) seed_departments
    /\ rows_of (students db')
       = (rows_of (students db)
          ++ numbered (top_of s_id (students db) + 1) seed_students)%list.
Proof.
  intros Hempty Hio Hfree Hleft.
  rewrite initializeDatabase_healthy by exact Hio.
  destruct (create_if_not_exists_some (departments db)) as (td & Hd & Hrd & Htd).
  destruct (create_if_not_exists_some (faculty db)) as (tf & Hf & Hrf & Htf).
  destruct (create_if_not_exists_some (students db)) as (ts & Hs & Hrs & Hts).
  destruct (create_if_not_exists_some (courses db)) as (tc & Hc & Hrc & Htc).
  destruct (seed_accepted io (create_all db) td tf ts tc Hio Hd Hf Hs Hc)
    as (db' & Hseed & Kd & _ & Ks & _).
  { unfold seed_keys_free in *. cbn [create_all students courses].
    rewrite !rows_of_create. exact Hfree. }
  { unfold seed_ids_left, ids_left in *.
    cbn [create_all departments faculty students courses].
    rewrite Hd, Hf, Hs, Hc. cbn [top_of].
    rewrite Htd, Htf, Hts, Htc. exact Hleft. }
  exists db'. split.
  - unfold seed_if_empty, select_count. rewrite Hio.
    cbn [create_all departments]. rewrite Hd, filter_all_rows, Hrd, Hempty.
    exact Hseed.
  - rewrite Kd, Ks, Hrd, Hrs, Htd, Hts, Hempty. split; reflexivity.
Qed.

(** X25: the seed refers to its department by the literal id 1.  The
    seeded student carries [department_id] 1 whatever ids the seeded
    departments received: on a table of departments whose counter is
    still 0 that is Computer Science, and on one whose counter has
    advanced (rows were stored and removed before) no department has id
    1, so the reference dangles. *)
Theorem seed_refers_to_department_one (io : nat -> fault) (db : store) :
  rows_of (departments db) = [] ->
  (forall k, io k = None) ->
  seed_keys_free db = true ->
  seed_ids_left db = true ->
  exists db' s,
    initializeDatabase io db = Running db'
    /\ rows_of (students db') = (rows_of (students db) ++ [s])%list
    /\ s_student_id s = SText "#ST-2024-001"
    /\ s_department_id s = SInt 1
    /\ (top_of d_id (departments db) = 0 ->
        department_name_of (rows_of (departments db')) (s_department_id s)
        = SText "Computer Science")
    /\ (0 < top_of d_id (departments db) ->
        department_name_of (rows_of (departments db')) (s_department_id s)
        = SNull).
Proof.
  intros Hempty Hio Hfree Hleft.
  destruct (startup_seeds io db Hempty Hio Hfree Hleft)
    as (db' & Hrun & Hd & Hs).
  exists db'. eexists. split; [exact Hrun |].
  split; [exact Hs |]. simpl.
  split; [reflexivity |]. split; [reflexivity |].
  rewrite Hd. split.
  - intros ->. reflexivity.
  - intros Hpos. apply department_name_of_missing.
    simpl. intros d Hin [= Hid].
    destruct Hin as [<-|[<-|[<-|[<-|[]]]]]; simpl in Hid; lia.
Qed.

(** *** The further properties on the worked stores *)

Lemma initials_at_most_two_witness :
  Js.Str "D"
  = Js.Str (leading_unit (first_name numeric_name)
            ++ leading_unit (last_name numeric_name))%list
  /\ (List.length (leading_unit (first_name numeric_name)
                   ++ leading_unit (last_name numeric_name))%list <= 2)%nat.
Proof. exact (initials_at_most_two numeric_name (Js.Str "D") eq_refl). Defined.

Lemma missing_student_id_rejected_witness :
  exists err,
    post_api_students None (1 # 2) anonymous seeded
    = (Sent (res_status_json 500 (error_body (message err))), seeded)
    /\ err = NotNullFailed "students.student_id".
Proof.
  destruct (missing_student_id_rejected None (1 # 2) anonymous seeded
              eq_refl eq_refl eq_refl) as (err & Hpost & Herr).
  exists err. split; [exact Hpost |].
  apply (Herr eq_refl seeded_students eq_refl). discriminate.
Defined.

Lemma created_student_listed_witness :
  exists row name rest,
    select_recent None enrolled = inr ((row, name) :: rest)
    /\ res_json (saved "Student" 2) = res_json (saved "Student" (s_id row))
    /\ s_student_id row = SText "#ST-2024-002"
    /\ s_first_name row = SText "John"
    /\ s_last_name row = SText "Doe"
    /\ s_email row = SText "john@academia.test"
    /\ s_status row = SText "Pending"
    /\ initials john = Js.Normal (Js.Str "JD")
    /\ s_avatar_initials row = SText "JD"
    /\ s_avatar_color row = SText "cyan".
Proof.
  exact (created_student_listed None (3 # 4) john seeded enrolled
           (res_json (saved "Student" 2)) enrolled_departments
           eq_refl eq_refl eq_refl).
Defined.

Lemma student_id_compared_as_text_witness :
  exists msg,
    post_api_students None (1 # 4) (numbered_request (Js.Str "7")) with_seven
    = (Sent (res_status_json 500 (error_body msg)), with_seven).
Proof.
  exact (proj1 (student_id_compared_as_text None None 0 (1 # 4)
                  (numbered_request (Js.Num (Js.int 7 eq_refl)))
                  (numbered_request (Js.Str "7")) seeded with_seven
                  (res_json (saved "Student" 2))
                  eq_refl eq_refl eq_refl eq_refl eq_refl)).
Defined.

Lemma consecutive_creations_consecutive_ids_witness :
  exists id,
    res_json (saved "Student" 2) = res_json (saved "Student" id)
    /\ res_json (saved "Student" 3) = res_json (saved "Student" (id + 1)).
Proof.
  exact (consecutive_creations_consecutive_ids None None (3 # 4) 0 john
           (newcomer 1) seeded enrolled enrolled_twice
           (res_json (saved "Student" 2)) (res_json (saved "Student" 3))
           eq_refl eq_refl eq_refl eq_refl).
Defined.

Lemma student_keys_stay_sound_witness :
  exists t',
    students (snd (post_api_students None (3 # 4) john seeded)) = Some t'
    /\ student_keys_sound t'.
Proof.
  refine (student_keys_stay_sound None (3 # 4) john seeded seeded_students
            eq_refl _).
  split.
  - repeat constructor. simpl. tauto.
  - repeat constructor. simpl. discriminate.
Defined.

Lemma faculty_avatar_url_witness :
  exists t row,
    faculty seeded = Some t
    /\ rows_of (faculty staffed) = (rows t ++ [row])%list
    /\ res_json (saved "Faculty" 3) = res_json (saved "Faculty" (f_id row))
    /\ f_avatar_url row
       = SText "https://ui-avatars.com/api/?name=Emmy+Noether&background=random"
    /\ f_first_name row = SText "Emmy"
    /\ f_last_name row = SText "Noether"
    /\ departments staffed = departments seeded
    /\ students staffed = students seeded
    /\ courses staffed = courses seeded
    /\ schedule staffed = schedule seeded.
Proof.
  exact (faculty_avatar_url None lecturer seeded staffed
           (res_json (saved "Faculty" 3)) eq_refl eq_refl).
Defined.

Lemma creations_move_counters_witness :
  get_api_stats None None None [1; 2; 0]%nat enrolled
  = Sent (res_json (stats_body (1 + 1) 1 2)).
Proof.
  exact (proj1 (creations_move_counters [0; 1; 2]%nat [1; 2; 0]%nat seeded
                  enrolled (res_json (saved "Student" 2)) 1 1 2
                  eq_refl eq_refl)
               None (3 # 4) john eq_refl).
Defined.

Lemma recent_department_names_witness :
  SText "Computer Science"
  = department_name_of (rows enrolled_departments) (SInt 1)
  /\ SNull = department_name_of (rows enrolled_departments)
                                (s_department_id john_row).
Proof.
  split.
  - exact (proj1 (recent_department_names None enrolled enrolled_view
                    enrolled_departments
                    (nth 0 (rows enrolled_students) john_row)
                    (SText "Computer Science") eq_refl eq_refl
                    ltac:(repeat constructor; simpl; intuition discriminate)
                    (or_intror (or_introl eq_refl)))).
  - exact (proj1 (recent_department_names None enrolled enrolled_view
                    enrolled_departments john_row SNull eq_refl eq_refl
                    ltac:(repeat constructor; simpl; intuition discriminate)
                    (or_introl eq_refl))).
Defined.

Lemma recent_shows_all_when_few_witness :
  exists rs,
    select_recent None enrolled = inr rs
    /\ Permutation (map fst rs) (rows enrolled_students)
    /\ List.length rs = List.length (rows enrolled_students).
Proof.
  refine (recent_shows_all_when_few enrolled enrolled_students
            enrolled_departments eq_refl eq_refl _ _).
  - repeat constructor; simpl; intuition discriminate.
  - apply Nat.leb_le. reflexivity.
Defined.

Lemma decimal_text_stored_as_integer_witness :
  integer_affinity (bind_param (Js.Str (decimal 2))) = SInt 2
  /\ s_department_id
       (student_affinity
          (student_params (numbered_request (Js.Num (Js.int 7 eq_refl))) (Js.Str "MS")
                          (Js.Str "blue") 9)) = SInt 2
  /\ f_department_id
       (faculty_affinity (faculty_params (numbered_request (Js.Num (Js.int 7 eq_refl))) 9))
     = SInt 2.
Proof.
  refine (decimal_text_stored_as_integer 2 (numbered_request (Js.Num (Js.int 7 eq_refl)))
            (Js.Str "MS") (Js.Str "blue") 9 _ eq_refl).
  split; discriminate.
Defined.

Lemma running_after_startup_serves_witness :
  tables_exist seeded
  /\ (exists r, get_api_stats None None None [0; 1; 2]%nat seeded = Sent r
                /\ status r = 200)
  /\ (exists r, get_api_enrollments_recent None seeded = Sent r
                /\ status r = 200).
Proof.
  exact (running_after_startup_serves healthy fresh seeded [0; 1; 2]%nat
           eq_refl).
Defined.

Lemma restart_changes_nothing_witness :
  store_of (initializeDatabase no_students_table seeded) = seeded
  /\ ((forall k, (k < 5)%nat -> no_students_table k = None) ->
      initializeDatabase no_students_table seeded = Running seeded).
Proof.
  exact (restart_changes_nothing fresh seeded no_students_table eq_refl).
Defined.

Lemma count_failure_skips_seed_witness :
  initializeDatabase count_fails fresh = Running (create_all fresh)
  /\ same_rows fresh (create_all fresh)
  /\ tables_exist (create_all fresh).
Proof.
  refine (count_failure_skips_seed count_fails fresh
            "SQLITE_BUSY: database is locked" _ eq_refl).
  intros k Hk.
  destruct k as [|[|[|[|[|k]]]]]; try reflexivity.
  exfalso. apply Nat.ltb_lt in Hk. discriminate Hk.
Defined.

Lemma seeding_all_or_exit_witness :
  (exists db' e, initializeDatabase busy_once fresh = Exited db' e)
  \/ exists db',
       initializeDatabase busy_once fresh = Running db'
       /\ List.length (rows_of (departments db')) = 4%nat
       /\ List.length (rows_of (faculty db'))
          = (List.length (rows_of (faculty fresh)) + 2)%nat
       /\ List.length (rows_of (students db'))
          = (List.length (rows_of (students fresh)) + 1)%nat
       /\ List.length (rows_of (courses db'))
          = (List.length (rows_of (courses fresh)) + 1)%nat.
Proof.
  refine (seeding_all_or_exit busy_once fresh eq_refl _).
  intros k Hk.
  destruct k as [|[|[|[|[|[|k]]]]]]; try reflexivity.
  exfalso. apply Nat.ltb_lt in Hk. discriminate Hk.
Defined.

Lemma seed_refers_to_department_one_witness :
  exists db' s,
    initializeDatabase healthy fresh = Running db'
    /\ rows_of (students db') = (rows_of (students fresh) ++ [s])%list
    /\ s_student_id s = SText "#ST-2024-001"
    /\ s_department_id s = SInt 1
    /\ (top_of d_id (departments fresh) = 0 ->
        department_name_of (rows_of (departments db')) (s_department_id s)
        = SText "Computer Science")
    /\ (0 < top_of d_id (departments fresh) ->
        department_name_of (rows_of (departments db')) (s_department_id s)
        = SNull).
Proof.
  exact (seed_refers_to_department_one healthy fresh eq_refl
           (fun _ => eq_refl) eq_refl eq_refl).
Defined.
